(** * Verification of the portfolio PWA service workers

  A shallow embedding of the request-caching logic of the three service
  worker scripts of the repository:

  - [Portfolio]: the multi-strategy worker (src/unnamed/part_000, lines 1-468);
  - [Legacy]:    the minimal worker that follows it in the same file
                 (src/unnamed/part_000, lines 469-499);
  - [Pages]:     the GitHub Pages worker (src/sw.js).

  The browser objects the scripts call (URL, Request, Response, Headers,
  CacheStorage, Cache, fetch, promises) are modelled in [Web]; the network
  and the worker's own location are parameters of every definition that
  reads them. *)

From Stdlib Require Import String Ascii List ZArith Bool Arith Lia SpecFloat.
Import ListNotations.
Open Scope string_scope.

(** ** JavaScript string methods *)

Module JsString.

(** [s.startsWith(p)] *)
Definition startsWith (s p : string) : bool := String.prefix p s.

(** [s.endsWith(p)]: the last [length p] characters of [s] are [p]. *)
Definition endsWith (s p : string) : bool :=
  let n := String.length s in
  let m := String.length p in
  (m <=? n)%nat && String.eqb (substring (n - m) m s) p.

(** [s.includes(p)]: [p] occurs at some position of [s]. *)
Fixpoint includes (s p : string) : bool :=
  String.prefix p s ||
  match s with
  | EmptyString => false
  | String _ s' => includes s' p
  end.

(** ASCII lower-casing, as the Headers object applies to header names. *)
Definition lower_ascii (c : ascii) : ascii :=
  let n := nat_of_ascii c in
  if ((65 <=? n) && (n <=? 90))%nat then ascii_of_nat (n + 32) else c.

Fixpoint toLowerCase (s : string) : string :=
  match s with
  | EmptyString => EmptyString
  | String c s' => String (lower_ascii c) (toLowerCase s')
  end.

End JsString.

(** ** The web platform objects the workers use *)

Module Web.
Import JsString.

(** A parsed URL, with the components the scripts read.  [port] is empty
    for the scheme's default port; [search] includes its leading "?". *)
Record URL := mkURL {
  protocol : string;
  hostname : string;
  port : string;
  pathname : string;
  search : string
}.

Definition host (u : URL) : string :=
  if String.eqb (port u) "" then hostname u else hostname u ++ ":" ++ port u.

Definition origin (u : URL) : string := protocol u ++ "//" ++ host u.

(** The serialised URL: what [request.url] holds and [new URL] parses. *)
Definition href (u : URL) : string := origin u ++ pathname u ++ search u.

(** A Request, with the properties the scripts read.  [accept] is the value
    of [headers.get("accept")] ([None] for null); [formData] is what
    [request.formData()] resolves with ([None] when it rejects). *)
Record Request := mkRequest {
  method : string;
  url : URL;
  destination : string;
  accept : option string;
  formData : option (list (string * string))
}.

Definition request_url (r : Request) : string := href (url r).

Record Response := mkResponse {
  status : Z;
  statusText : string;
  headers : list (string * string);
  body : string
}.

Fixpoint headers_get (name : string) (hs : list (string * string)) : option string :=
  match hs with
  | [] => None
  | (n, v) :: hs' =>
      if String.eqb n (toLowerCase name) then Some v else headers_get name hs'
  end.

Definition headers_of (init : list (string * string)) : list (string * string) :=
  map (fun nv => (toLowerCase (fst nv), snd nv)) init.

(** [new Response(body, { status, statusText, headers })] for a string
    body: status defaults to 200, statusText to the empty string, and the
    body's own content type is added when [headers] names none. *)
Definition new_Response (body : string) (status : option Z)
    (statusText : option string) (init : list (string * string)) : Response :=
  let hs := headers_of init in
  {| status := match status with Some s => s | None => 200%Z end;
     statusText := match statusText with Some t => t | None => "" end;
     headers := match headers_get "Content-Type" hs with
                | Some _ => hs
                | None => (hs ++ [("content-type", "text/plain;charset=UTF-8")])%list
                end;
     body := body |}.

(** [response.clone()] *)
Definition clone (r : Response) : Response := r.

Definition Error := string.

(** What [fetch(request)] settles with: a response of any status, or a
    network error. *)
Inductive NetOutcome :=
| Fetched (r : Response)
| NetworkError (e : Error).

(** *** Cache storage

    A cache maps a request's identity (method and URL) to a response.
    [CacheStorage] is the list of named caches in creation order, the order
    in which [caches.match] searches them. *)

Definition Key := (string * string)%type.

Definition key_eqb (a b : Key) : bool :=
  String.eqb (fst a) (fst b) && String.eqb (snd a) (snd b).

Definition request_key (r : Request) : Key := (method r, request_url r).

Definition Cache := list (Key * Response).
Definition CacheStorage := list (string * Cache).

(** [cache.match(key)] *)
Fixpoint cache_match (c : Cache) (k : Key) : option Response :=
  match c with
  | [] => None
  | (k', r) :: c' => if key_eqb k' k then Some r else cache_match c' k
  end.

(** [cache.put(key, r)]: the entry for [k] is replaced. *)
Definition cache_put (c : Cache) (k : Key) (r : Response) : Cache :=
  (filter (fun e => negb (key_eqb (fst e) k)) c ++ [(k, r)])%list.

(** [caches.match(key)]: the first match over all caches, in creation
    order. *)
Fixpoint storage_match (cs : CacheStorage) (k : Key) : option Response :=
  match cs with
  | [] => None
  | (_, c) :: cs' =>
      match cache_match c k with
      | Some r => Some r
      | None => storage_match cs' k
      end
  end.

Fixpoint storage_find (cs : CacheStorage) (name : string) : option Cache :=
  match cs with
  | [] => None
  | (n, c) :: cs' => if String.eqb n name then Some c else storage_find cs' name
  end.

(** The entry of the cache called [name] for [k]: what
    [caches.open(name)] followed by [cache.match(k)] would give. *)
Definition store_get (cs : CacheStorage) (name : string) (k : Key) : option Response :=
  match storage_find cs name with
  | Some c => cache_match c k
  | None => None
  end.

(** [caches.open(name)]: the cache is created, last, when it is missing. *)
Definition storage_open (cs : CacheStorage) (name : string) : CacheStorage :=
  match storage_find cs name with
  | Some _ => cs
  | None => (cs ++ [(name, [])])%list
  end.

Fixpoint storage_put (cs : CacheStorage) (name : string) (k : Key) (r : Response)
    : CacheStorage :=
  match cs with
  | [] => []
  | (n, c) :: cs' =>
      if String.eqb n name then (n, cache_put c k r) :: cs'
      else (n, c) :: storage_put cs' name k r
  end.

(** *** Asynchronous computations

    The worker's observable history is a trace of events, oldest first. *)
Inductive Event :=
| EvFetch (request : Request)                    (* fetch(request) is issued *)
| EvFetchSettled (o : NetOutcome)                (* that fetch settles *)
| EvPut (name : string) (k : Key) (r : Response) (* a write reaches the store *)
| EvReturn.                                      (* the async function settles *)

Record World := mkWorld {
  storage : CacheStorage;
  trace : list Event
}.

Definition emit (e : Event) (w : World) : World :=
  {| storage := storage w; trace := (trace w ++ [e])%list |}.

Inductive Settled (A : Type) :=
| Resolved (a : A)
| Rejected (e : Error).
Arguments Resolved {A} a.
Arguments Rejected {A} e.

(** A detached task: a promise nobody awaits.  Only its effects remain. *)
Definition Task := World -> World.

Definition run_tasks (ts : list Task) (w : World) : World :=
  fold_left (fun w t => t w) ts w.

(** An asynchronous computation settles with a value or an error, changes
    the world, and may leave detached tasks behind. *)
Definition Async (A : Type) := World -> Settled A * World * list Task.

(** A promise is a computation that has been started and is yet to be
    consumed: its effects take place where it is awaited, or after the
    function has returned when it is dropped ([forget]).  The scripts consume
    every promise exactly once. *)
Definition Promise (A : Type) := Async A.

Definition ret {A} (a : A) : Async A := fun w => (Resolved a, w, []).

Definition throw {A} (e : Error) : Async A := fun w => (Rejected e, w, []).

Definition bind {A B} (m : Async A) (k : A -> Async B) : Async B :=
  fun w =>
    match m w with
    | (Resolved a, w1, ts) =>
        let '(s, w2, ts') := k a w1 in (s, w2, (ts ++ ts')%list)
    | (Rejected e, w1, ts) => (Rejected e, w1, ts)
    end.

(** [try { m } catch (error) { h error }] and [promise.catch(h)] *)
Definition try_catch {A} (m : Async A) (h : Error -> Async A) : Async A :=
  fun w =>
    match m w with
    | (Resolved a, w1, ts) => (Resolved a, w1, ts)
    | (Rejected e, w1, ts) =>
        let '(s, w2, ts') := h e w1 in (s, w2, (ts ++ ts')%list)
    end.

Declare Scope async_scope.
Delimit Scope async_scope with async.
Notation "x <- m ;; k" := (bind m (fun x => k))
  (at level 61, m at next level, right associativity) : async_scope.
Notation "m ;;; k" := (bind m (fun _ => k))
  (at level 61, right associativity) : async_scope.
Open Scope async_scope.

(** [await e] *)
Definition await {A} (m : Async (Promise A)) : Async A := p <- m ;; p.

(** [e.then(f)] *)
Definition then_ {A B} (m : Async (Promise A)) (f : A -> Async B)
    : Async (Promise B) :=
  p <- m ;; ret (bind p f).

(** [e.catch(g)] *)
Definition catch_ {A} (m : Async (Promise A)) (g : Error -> Async A)
    : Async (Promise A) :=
  p <- m ;; ret (try_catch p g).

(** A promise that is dropped runs to completion on its own, after the
    function that started it has returned, and its outcome is lost. *)
Definition detach {A} (p : Promise A) : Task :=
  fun w => let '(_, w1, ts) := p w in run_tasks ts w1.

(** A call whose promise is dropped, as in [cache.put(...);]. *)
Definition forget {A} (m : Async (Promise A)) : Async unit :=
  fun w =>
    match m w with
    | (Resolved p, w1, ts) => (Resolved tt, w1, (ts ++ [detach p])%list)
    | (Rejected e, w1, ts) => (Rejected e, w1, ts)
    end.

(** [fetch(request)]: the call is issued at once; the promise settles with
    what the network answers. *)
Definition fetch (network : Request -> NetOutcome) (request : Request)
    : Async (Promise Response) :=
  fun w =>
    (Resolved (fun w' =>
                 let o := network request in
                 match o with
                 | Fetched r => (Resolved r, emit (EvFetchSettled o) w', [])
                 | NetworkError e => (Rejected e, emit (EvFetchSettled o) w', [])
                 end),
     emit (EvFetch request) w, []).

(** [caches.match(request)] *)
Definition caches_match (request : Request) : Async (Promise (option Response)) :=
  ret (fun w => (Resolved (storage_match (storage w) (request_key request)), w, [])).

(** [caches.match(path)] for a path string: the key is a GET of the path
    resolved against the worker's own origin. *)
Definition caches_match_path (location : URL) (path : string)
    : Async (Promise (option Response)) :=
  ret (fun w =>
         (Resolved (storage_match (storage w) ("GET", origin location ++ path)), w, [])).

(** [request.formData()] *)
Definition request_formData (request : Request)
    : Async (Promise (list (string * string))) :=
  ret (match formData request with
       | Some d => ret d
       | None => throw "TypeError: could not parse content as FormData"
       end).

(** [Response.redirect(path, status)], the path resolved against the worker's
    own origin. *)
Definition Response_redirect (location : URL) (path : string) (status : Z) : Response :=
  {| status := status;
     statusText := "";
     headers := [("location", origin location ++ path)];
     body := "" |}.

(** [caches.open(name)]; the handle is the cache's name. *)
Definition caches_open (name : string) : Async (Promise string) :=
  ret (fun w =>
         (Resolved name,
          {| storage := storage_open (storage w) name; trace := trace w |}, [])).

(** [cache.put(request, response)] on the handle [cache]. *)
Definition put (cache : string) (request : Request) (response : Response)
    : Async (Promise unit) :=
  ret (fun w =>
         (Resolved tt,
          emit (EvPut cache (request_key request) response)
            {| storage := storage_put (storage w) cache (request_key request) response;
               trace := trace w |}, [])).

(** The outcome of calling an async function (or of the promise handed to
    [event.respondWith]) in a given world: what it settles with, and the
    world once the detached tasks have finished too. *)
Record Run (A : Type) := mkRun {
  settled : Settled A;
  final : World
}.
Arguments settled {A} r.
Arguments final {A} r.

Definition run {A} (m : Async A) (cs : CacheStorage) : Run A :=
  let '(s, w, ts) := m {| storage := cs; trace := [] |} in
  {| settled := s; final := run_tasks ts (emit EvReturn w) |}.

(** *** Observations on a trace *)

Definition network_calls (t : list Event) : nat :=
  length (filter (fun e => match e with EvFetch _ => true | _ => false end) t).

Fixpoint writes (t : list Event) : list (string * Key * Response) :=
  match t with
  | [] => []
  | EvPut n k r :: t' => (n, k, r) :: writes t'
  | _ :: t' => writes t'
  end.

(** Whether the function settled only after a fetch had settled. *)
Fixpoint waited_for_network (t : list Event) : bool :=
  match t with
  | [] => false
  | EvReturn :: _ => false
  | EvFetchSettled _ :: _ => true
  | _ :: t' => waited_for_network t'
  end.

(** Every write of a run stores, under the request's key, the response the
    network gave for that request. *)
Definition writes_from_network {A} (r : Run A) (network : Request -> NetOutcome)
    (request : Request) : Prop :=
  forall n k resp,
    In (n, k, resp) (writes (trace (final r))) ->
    k = request_key request /\ network request = Fetched resp.

(** The offline document both [Portfolio] and [Pages] embed, character for
    character (part_000 lines 231-294, sw.js lines 108-171). *)
Definition dq : string := String "034"%char EmptyString.

Definition offline_html : string :=
  "
        <!DOCTYPE html>
        <html lang=" ++ dq ++
  "en" ++ dq ++
  ">
        <head>
            <meta charset=" ++ dq ++
  "UTF-8" ++ dq ++
  ">
            <meta name=" ++ dq ++
  "viewport" ++ dq ++
  " content=" ++ dq ++
  "width=device-width, initial-scale=1.0" ++ dq ++
  ">
            <title>Offline - John Doe Portfolio</title>
            <style>
                body {
                    font-family: -apple-system, BlinkMacSystemFont, 'Segoe UI', Roboto, sans-serif;
                    background: linear-gradient(135deg, #667eea 0%, #764ba2 100%);
                    color: white;
                    height: 100vh;
                    margin: 0;
                    display: flex;
                    align-items: center;
                    justify-content: center;
                    text-align: center;
                }
                .offline-content {
                    max-width: 400px;
                    padding: 2rem;
                }
                .offline-icon {
                    font-size: 4rem;
                    margin-bottom: 1rem;
                }
                h1 {
                    margin-bottom: 1rem;
                    font-size: 2rem;
                }
                p {
                    margin-bottom: 2rem;
                    opacity: 0.9;
                }
                .retry-button {
                    background: rgba(255, 255, 255, 0.2);
                    border: 2px solid white;
                    color: white;
                    padding: 0.8rem 2rem;
                    border-radius: 50px;
                    cursor: pointer;
                    font-size: 1rem;
                    font-weight: 600;
                    transition: all 0.3s ease;
                }
                .retry-button:hover {
                    background: white;
                    color: #667eea;
                }
            </style>
        </head>
        <body>
            <div class=" ++ dq ++
  "offline-content" ++ dq ++
  ">
                <div class=" ++ dq ++
  "offline-icon" ++ dq ++
  ">🔌</div>
                <h1>You're Offline</h1>
                <p>This page isn't available offline. Please check your internet connection and try again.</p>
                <button class=" ++ dq ++
  "retry-button" ++ dq ++
  " onclick=" ++ dq ++
  "window.location.reload()" ++ dq ++
  ">
                    Try Again
                </button>
            </div>
        </body>
        </html>
    ".

(** *** Cache lifecycle operations *)

(** The responses [cache.add] and [cache.addAll] accept: an ok status (200 to
    299), 206 excepted. *)
Definition cacheable_by_add (r : Response) : bool :=
  (200 <=? status r)%Z && (status r <=? 299)%Z && negb (status r =? 206)%Z.

(** [new Request(url)] as the cache methods build it from a URL: a GET. *)
Definition request_of_url (u : URL) : Request :=
  mkRequest "GET" u "" (Some "*/*") None.

(** A path resolved against the worker's own location. *)
Definition resolve_path (location : URL) (path : string) : URL :=
  mkURL (protocol location) (hostname location) (port location) path "".

(** The names [caches.keys()] lists, in creation order. *)
Definition storage_keys (cs : CacheStorage) : list string := map fst cs.

Definition storage_delete (cs : CacheStorage) (name : string) : CacheStorage :=
  filter (fun nc => negb (String.eqb (fst nc) name)) cs.

(** [caches.keys()] *)
Definition caches_keys : Async (Promise (list string)) :=
  ret (fun w => (Resolved (storage_keys (storage w)), w, [])).

(** [caches.delete(name)]: resolves with whether the cache existed. *)
Definition caches_delete (name : string) : Async (Promise bool) :=
  ret (fun w =>
         (Resolved (match storage_find (storage w) name with
                    | Some _ => true
                    | None => false
                    end),
          {| storage := storage_delete (storage w) name; trace := trace w |}, [])).

(** The calls of [array.map(f)] are made one after the other; each hands
    back its promise. *)
Fixpoint issue_all {A} (ms : list (Async (Promise A))) : Async (list (Promise A)) :=
  match ms with
  | [] => ret []
  | m :: ms' => p <- m ;; ps <- issue_all ms' ;; ret (p :: ps)
  end.

(** Waiting for all of a list of promises: every one of them runs; the
    result is the list of their values, or the first error. *)
Fixpoint settle_all {A} (ps : list (Promise A)) : Promise (list A) :=
  fun w =>
    match ps with
    | [] => (Resolved [], w, [])
    | p :: ps' =>
        let '(s, w1, ts) := p w in
        let '(ss, w2, ts') := settle_all ps' w1 in
        (match s, ss with
         | Resolved a, Resolved l => Resolved (a :: l)
         | Rejected e, _ => Rejected e
         | Resolved _, Rejected e => Rejected e
         end, w2, (ts ++ ts')%list)
    end.

(** [Promise.all(array.map(f))] *)
Definition Promise_all {A} (ms : list (Async (Promise A))) : Async (Promise (list A)) :=
  ps <- issue_all ms ;; ret (settle_all ps).

(** [Promise.allSettled(array.map(f))]: never rejects. *)
Definition Promise_allSettled {A} (ms : list (Async (Promise A)))
    : Async (Promise (list (Settled A))) :=
  ps <- issue_all ms ;;
  ret (settle_all
         (map (fun p : Promise A =>
                 try_catch (a <- p ;; ret (Resolved a)) (fun e => ret (Rejected e)))
            ps)).

Fixpoint put_all (cache : string) (entries : list (Request * Response)) : Async unit :=
  match entries with
  | [] => ret tt
  | (request, response) :: entries' =>
      await (put cache request response) ;;; put_all cache entries'
  end.

(** [cache.addAll(requests)]: every request is fetched; the responses are
    stored only when every fetch succeeded with an acceptable status. *)
Definition cache_addAll (network : Request -> NetOutcome) (cache : string)
    (requests : list Request) : Async (Promise unit) :=
  then_
    (Promise_all
       (map (fun request =>
               then_ (fetch network request)
                 (fun response =>
                    if cacheable_by_add response then ret response
                    else throw "TypeError: bad response status"))
          requests))
    (fun responses => put_all cache (combine requests responses)).

(** [cache.add(request)] is [cache.addAll([request])]. *)
Definition cache_add (network : Request -> NetOutcome) (cache : string)
    (request : Request) : Async (Promise unit) :=
  cache_addAll network cache [request].

(** [self.skipWaiting()] and [self.clients.claim()] touch neither the caches
    nor the network. *)
Definition self_skipWaiting : Async (Promise unit) := ret (ret tt).
Definition clients_claim : Async (Promise unit) := ret (ret tt).

(** [a || b] for a string that may be missing: [undefined] and the empty
    string are falsy. *)
Definition string_or (a : option string) (b : string) : string :=
  match a with
  | Some s => if String.eqb s "" then b else s
  | None => b
  end.

End Web.

(** ** The multi-strategy worker (src/unnamed/part_000, lines 1-468) *)

Module Portfolio.
Import JsString Web.

Definition CACHE_NAME : string := "portfolio-v1.0.1".
Definition STATIC_CACHE : string := "static-v1.0.1".
Definition DYNAMIC_CACHE : string := "dynamic-v1.0.1".

(** [createOfflinePage()] *)
Definition createOfflinePage (_ : unit) : Response :=
  new_Response offline_html None None
    [("Content-Type", "text/html"); ("Cache-Control", "no-cache")].

Section Worker.

(** [self.location] and the network behind [fetch]. *)
Variable location : URL.
Variable network : Request -> NetOutcome.

Definition cacheFirstStrategy (request : Request) (cacheName : string)
    : Async Response :=
  try_catch
    (cachedResponse <- await (caches_match request) ;;
     match cachedResponse with
     | Some cached => ret cached
     | None =>
         networkResponse <- await (fetch network request) ;;
         (if (status networkResponse =? 200)%Z
          then (cache <- await (caches_open cacheName) ;;
                forget (put cache request (clone networkResponse)))
          else ret tt) ;;;
         ret networkResponse
     end)
    (fun error =>
       if (destination request =? "document")%string
       then ret (createOfflinePage tt)
       else ret (new_Response "Offline" (Some 503%Z) (Some "Service Unavailable") [])).

Definition networkFirstStrategy (request : Request) (cacheName : string)
    : Async Response :=
  try_catch
    (networkResponse <- await (fetch network request) ;;
     (if (status networkResponse =? 200)%Z
      then (cache <- await (caches_open cacheName) ;;
            forget (put cache request (clone networkResponse)))
      else ret tt) ;;;
     ret networkResponse)
    (fun error =>
       cachedResponse <- await (caches_match request) ;;
       match cachedResponse with
       | Some cached => ret cached
       | None => throw error
       end).

(** [return cachedResponse || fetchPromise]: with a cached response the
    function returns it and the fetch promise is left to finish on its own;
    without one the function's result is the fetch promise's. *)
Definition staleWhileRevalidateStrategy (request : Request) (cacheName : string)
    : Async Response :=
  cachedResponse <- await (caches_match request) ;;
  fetchPromise <-
    catch_
      (then_ (fetch network request)
         (fun networkResponse =>
            (if (status networkResponse =? 200)%Z
             then forget
                    (then_ (caches_open cacheName)
                       (fun c => await (put c request (clone networkResponse))))
             else ret tt) ;;;
            ret networkResponse))
      (fun error =>
         ret (match cachedResponse with
              | Some cached => cached
              | None => createOfflinePage tt
              end)) ;;
  match cachedResponse with
  | Some cached => forget (ret fetchPromise) ;;; ret cached
  | None => fetchPromise
  end.

Definition isStaticAsset (request : Request) : bool :=
  let url := url request in
  (pathname url =? "/")%string ||
  (pathname url =? "/index.html")%string ||
  (pathname url =? "/manifest.json")%string ||
  endsWith (pathname url) ".css" ||
  endsWith (pathname url) ".js" ||
  endsWith (pathname url) ".png" ||
  endsWith (pathname url) ".jpg" ||
  endsWith (pathname url) ".svg" ||
  endsWith (pathname url) ".ico".

Definition isFont (request : Request) : bool :=
  let url := url request in
  (hostname url =? "fonts.googleapis.com")%string ||
  (hostname url =? "fonts.gstatic.com")%string ||
  endsWith (pathname url) ".woff" ||
  endsWith (pathname url) ".woff2" ||
  endsWith (pathname url) ".ttf" ||
  endsWith (pathname url) ".otf".

Definition isAPIRequest (request : Request) : bool :=
  let url := url request in
  startsWith (pathname url) "/api/" ||
  negb (hostname url =? hostname location)%string.

(** The first fetch listener (lines 82-115).  [None]: the listener returns
    without calling [event.respondWith]; [Some p]: it calls
    [event.respondWith(p)]. *)
Definition fetch_listener (request : Request) : option (Async Response) :=
  let url := url request in
  if negb (method request =? "GET")%string then None
  else if negb (startsWith (request_url request) "http") then None
  else if (protocol url =? "chrome-extension:")%string then None
  else if isStaticAsset request then
    Some (cacheFirstStrategy request STATIC_CACHE)
  else if isFont request then
    Some (cacheFirstStrategy request DYNAMIC_CACHE)
  else if isAPIRequest request then
    Some (networkFirstStrategy request DYNAMIC_CACHE)
  else
    Some (staleWhileRevalidateStrategy request DYNAMIC_CACHE).

(** The categories of the specification, read off the listener's
    if-else chain. *)
Inductive Category := StaticAsset | Font | ApiRequest | Other.

Definition classify (request : Request) : Category :=
  if isStaticAsset request then StaticAsset
  else if isFont request then Font
  else if isAPIRequest request then ApiRequest
  else Other.

Definition strategy_of (c : Category) (request : Request) : Async Response :=
  match c with
  | StaticAsset => cacheFirstStrategy request STATIC_CACHE
  | Font => cacheFirstStrategy request DYNAMIC_CACHE
  | ApiRequest => networkFirstStrategy request DYNAMIC_CACHE
  | Other => staleWhileRevalidateStrategy request DYNAMIC_CACHE
  end.

Definition handleShareTarget (request : Request) : Async Response :=
  try_catch
    (formData <- await (request_formData request) ;;
     ret (Response_redirect location "/?shared=true" 303))
    (fun error => ret (Response_redirect location "/" 303)).

(** The second fetch listener (lines 438-445). *)
Definition share_target_listener (request : Request) : option (Async Response) :=
  let url := url request in
  if (pathname url =? "/share-target")%string && (method request =? "POST")%string
  then Some (handleShareTarget request)
  else None.

(** A fetch event is handed to both listeners in registration order; the
    event is answered by the first [respondWith].  [None]: no listener
    answered, and the browser handles the request itself. *)
Definition fetch_event (request : Request) : option (Async Response) :=
  match fetch_listener request with
  | Some p => Some p
  | None => share_target_listener request
  end.

(** The files cached at install time (lines 7-12), as parsed URLs. *)
Definition inter_stylesheet_url : URL :=
  mkURL "https:" "fonts.googleapis.com" "" "/css2"
    "?family=Inter:wght@300;400;500;600;700&display=swap".

Definition STATIC_FILES : list URL :=
  [resolve_path location "/";
   resolve_path location "/index.html";
   resolve_path location "/manifest.json";
   inter_stylesheet_url].

(** One file of the install list: [cache.add(url).catch(...)] (lines 30-33). *)
Definition add_or_skip (cache : string) (url : URL) : Async (Promise unit) :=
  catch_ (cache_add network cache (request_of_url url)) (fun err => ret tt).

(** "Cache static files" (lines 26-36). *)
Definition cache_static_files : Async (Promise unit) :=
  then_ (caches_open STATIC_CACHE)
    (fun cache =>
       await (Promise_allSettled (map (add_or_skip cache) STATIC_FILES)) ;;;
       ret tt).

(** "Prepare dynamic cache" (lines 39-42). *)
Definition prepare_dynamic_cache : Async (Promise unit) :=
  then_ (caches_open DYNAMIC_CACHE) (fun cache => ret tt).

(** The install handler's promise (lines 23-48). *)
Definition install : Async unit :=
  await
    (then_ (Promise_all [cache_static_files; prepare_dynamic_cache])
       (fun _ => await self_skipWaiting)).

(** One cache name of the activation pass (lines 60-69): [Some deleted] when
    [caches.delete] was called, [None] when the cache is kept. *)
Definition delete_if_old (cacheName : string) : Async (Promise (option bool)) :=
  if negb (cacheName =? STATIC_CACHE)%string &&
     negb (cacheName =? DYNAMIC_CACHE)%string &&
     negb (cacheName =? CACHE_NAME)%string
  then then_ (caches_delete cacheName) (fun deleted => ret (Some deleted))
  else ret (ret None).

(** "Clean up old caches" (lines 58-71). *)
Definition delete_old_caches : Async (Promise unit) :=
  then_ caches_keys
    (fun cacheNames =>
       await (Promise_all (map delete_if_old cacheNames)) ;;;
       ret tt).

(** The activate handler's promise (lines 55-78). *)
Definition activate : Async unit :=
  await
    (then_ (Promise_all [delete_old_caches; clients_claim])
       (fun _ => ret tt)).

(** *** Push notifications (lines 332-371) *)

(** The values [event.data.json()] can give, and [undefined] for a property
    that is missing.  A number is an IEEE 754 value, as in JavaScript. *)
#[warnings="-register-all"]
Inductive JsValue :=
| JsUndefined
| JsNull
| JsBool (b : bool)
| JsNumber (x : spec_float)
| JsString (s : string)
| JsObject (fields : list (string * JsValue))
| JsArray (items : list JsValue).

(** Truthiness: [undefined], [null], [false], 0, -0, NaN and the empty
    string are falsy; every other value is truthy. *)
Definition truthy (v : JsValue) : bool :=
  match v with
  | JsUndefined | JsNull => false
  | JsBool b => b
  | JsNumber (S754_zero _) | JsNumber S754_nan => false
  | JsNumber (S754_infinity _) | JsNumber (S754_finite _ _ _) => true
  | JsString s => negb (s =? "")%string
  | JsObject _ | JsArray _ => true
  end.

(** The number 1. *)
Definition js_one : spec_float := S754_finite false 4503599627370496 (-52).

(** [a || b] *)
Definition js_or (a b : JsValue) : JsValue := if truthy a then a else b.

Fixpoint own_property (fields : list (string * JsValue)) (name : string) : JsValue :=
  match fields with
  | [] => JsUndefined
  | (n, v) :: fields' => if (n =? name)%string then v else own_property fields' name
  end.

(** [v.name] for the five names the listener reads (title, body, image,
    primaryKey, url), none of which is a property of a boolean, number, string
    or array: [None] when the access throws a TypeError, as it does on [null]
    and [undefined]. *)
Definition get_property (v : JsValue) (name : string) : option JsValue :=
  match v with
  | JsUndefined | JsNull => None
  | JsObject fields => Some (own_property fields name)
  | JsBool _ | JsNumber _ | JsString _ | JsArray _ => Some JsUndefined
  end.

(** What [event.data.json()] does: it returns the parsed value, or throws a
    SyntaxError when the payload is not JSON. *)
Inductive Json :=
| Parsed (v : JsValue)
| NotJson.

Record NotificationData := mkNotificationData {
  dateOfArrival : spec_float;
  primaryKey : JsValue;
  nd_url : JsValue
}.

Record NotificationAction := mkAction {
  action : string;
  action_title : string;
  action_icon : string
}.

Record NotificationOptions := mkOptions {
  opt_body : JsValue;
  icon : string;
  badge : string;
  image : JsValue;
  vibrate : list Z;
  data : NotificationData;
  actions : list NotificationAction;
  requireInteraction : bool;
  silent : bool
}.

Inductive PushOutcome :=
| NothingShown
| PushThrew (e : Error)
| Shown (title : JsValue) (options : NotificationOptions).

(** The push listener.  [event_data] is [event.data]: [None] for null,
    otherwise what its [json()] does.  [now] is [Date.now()].  [Shown title
    options] stands for the call [showNotification(title, options)]; the
    listener has no try/catch, so a throwing [json()] or a property read on
    [null] ends it. *)
Definition push_listener (now : spec_float) (event_data : option Json) : PushOutcome :=
  match event_data with
  | None => NothingShown
  | Some NotJson => PushThrew "SyntaxError: not valid JSON"
  | Some (Parsed data) =>
      match get_property data "body", get_property data "image",
            get_property data "primaryKey", get_property data "url",
            get_property data "title" with
      | Some body, Some image, Some key, Some url, Some title =>
          let options :=
            {| opt_body := js_or body (JsString "New update available!");
               icon := "/manifest-icon-192.png";
               badge := "/manifest-icon-96.png";
               image := image;
               vibrate := [100; 50; 100]%Z;
               data := {| dateOfArrival := now;
                          primaryKey := js_or key (JsNumber js_one);
                          nd_url := js_or url (JsString "/") |};
               actions := [mkAction "explore" "View" "/manifest-icon-96.png";
                           mkAction "close" "Close" "/manifest-icon-96.png"];
               requireInteraction := true;
               silent := false |} in
          Shown (js_or title (JsString "Portfolio Update")) options
      | _, _, _, _, _ => PushThrew "TypeError: Cannot read properties of null"
      end
  end.

(** *** Notification clicks (lines 374-398) *)

(** A window client: its URL, and whether it has a [focus] method. *)
Record Client := mkClient {
  client_url : string;
  has_focus : bool
}.

Inductive WindowEffect :=
| Focused (client : Client)
| Opened (url : string)
| Untouched.

Record ClickOutcome := mkClick {
  notification_closed : bool;
  window : WindowEffect
}.

(** The notificationclick listener.  [notification_url] is
    [event.notification.data?.url]; [clientList] is what
    [clients.matchAll({ type: "window" })] gives; [openWindow] tells whether
    [clients.openWindow] exists. *)
Definition notificationclick_listener (event_action : string)
    (notification_url : option string) (clientList : list Client)
    (openWindow : bool) : ClickOutcome :=
  {| notification_closed := true;
     window :=
       if (event_action =? "explore")%string then
         let urlToOpen := string_or notification_url "/" in
         match find (fun client =>
                       (client_url client =? urlToOpen)%string && has_focus client)
                 clientList with
         | Some client => Focused client
         | None => if openWindow then Opened urlToOpen else Untouched
         end
       else Untouched |}.

(** *** Messages, background sync (lines 305-329, 401-435) *)

Inductive MessageEffect :=
| SkipWaiting
| PostVersion (version : string).

(** The message listener: both tests run, in this order.  [message_type] is
    [event.data.type], [None] when [event.data] is missing. *)
Definition message_listener (message_type : option string) : list MessageEffect :=
  match message_type with
  | None => []
  | Some type =>
      ((if (type =? "SKIP_WAITING")%string then [SkipWaiting] else []) ++
       (if (type =? "GET_VERSION")%string then [PostVersion CACHE_NAME] else []))%list
  end.

End Worker.

End Portfolio.

(** ** The minimal worker (src/unnamed/part_000, lines 469-499) *)

Module Legacy.
Import JsString Web.

Definition CACHE_NAME : string := "john-doe-portfolio-v1".

Section Worker.

Variable network : Request -> NetOutcome.

(** The promise handed to [event.respondWith] (lines 490-498). *)
Definition respond (request : Request) : Async Response :=
  await
    (then_ (caches_match request)
       (fun response =>
          match response with
          | Some cached => ret cached
          | None => await (fetch network request)
          end)).

(** The handler calls [event.respondWith] for every request. *)
Definition fetch_listener (request : Request) : option (Async Response) :=
  Some (respond request).

Variable location : URL.

(** The files cached at install time (lines 470-477), as parsed URLs. *)
Definition urlsToCache : list URL :=
  [resolve_path location "/";
   resolve_path location "/index.html";
   mkURL "https:" "cdnjs.cloudflare.com" ""
     "/ajax/libs/tailwindcss/2.2.19/tailwind.min.css" "";
   mkURL "https:" "placehold.co" "" "/150x150/2563eb/ffffff" "?text=JD";
   mkURL "https:" "placehold.co" "" "/192x192/1e40af/ffffff" "?text=JD";
   mkURL "https:" "placehold.co" "" "/512x512/1e40af/ffffff" "?text=JD"].

(** The install handler's promise (lines 481-486). *)
Definition install : Async unit :=
  await
    (then_ (caches_open CACHE_NAME)
       (fun cache => await (cache_addAll network cache (map request_of_url urlsToCache)))).

End Worker.

End Legacy.

(** ** The GitHub Pages worker (src/sw.js) *)

Module Pages.
Import JsString Web.

Definition CACHE_NAME : string := "portfolio-v1.0.2".
Definition STATIC_CACHE : string := "static-v1.0.2".
Definition DYNAMIC_CACHE : string := "dynamic-v1.0.2".
Definition BASE_URL : string := "/native-pwa/".

(** [createOfflinePage()]; the script defines it and never calls it. *)
Definition createOfflinePage (_ : unit) : Response :=
  new_Response offline_html None None
    [("Content-Type", "text/html"); ("Cache-Control", "no-cache")].

Section Worker.

Variable location : URL.
Variable network : Request -> NetOutcome.

(** The promise handed to [event.respondWith] (lines 81-101).  It resolves
    with a response or with [undefined] ([None]). *)
Definition respond (request : Request) : Async (option Response) :=
  await
    (catch_
       (then_ (caches_match request)
          (fun response =>
             match response with
             | Some cached => ret (Some cached)
             | None =>
                 await
                   (then_ (fetch network request)
                      (fun fetchResponse =>
                         await
                           (then_ (caches_open DYNAMIC_CACHE)
                              (fun cache =>
                                 forget (put cache request (clone fetchResponse)) ;;;
                                 ret (Some fetchResponse)))))
             end))
       (fun _ =>
          match accept request with
          | None => throw "TypeError: Cannot read properties of null"
          | Some a =>
              if includes a "text/html"
              then await (caches_match_path location (BASE_URL ++ "index.html"))
              else ret None
          end)).

Definition fetch_listener (request : Request) : option (Async (option Response)) :=
  let url := url request in
  if negb (method request =? "GET")%string then None
  else if negb (startsWith (request_url request) "http") then None
  else if startsWith (pathname url) BASE_URL ||
          (origin url =? origin location)%string
  then Some (respond request)
  else None.

(** The files cached at install time (lines 10-15), as parsed URLs. *)
Definition STATIC_FILES : list URL :=
  [resolve_path location BASE_URL;
   resolve_path location (BASE_URL ++ "index.html");
   resolve_path location (BASE_URL ++ "manifest.json");
   mkURL "https:" "fonts.googleapis.com" "" "/css2"
     "?family=Inter:wght@300;400;500;600;700&display=swap"].

(** The install handler's promise (lines 21-32). *)
Definition install : Async unit :=
  await
    (then_
       (then_ (caches_open STATIC_CACHE)
          (fun cache =>
             await (cache_addAll network cache (map request_of_url STATIC_FILES))))
       (fun _ => await self_skipWaiting)).

(** One cache name of the activation pass (lines 44-53). *)
Definition delete_if_old (cacheName : string) : Async (Promise (option bool)) :=
  if negb (cacheName =? STATIC_CACHE)%string &&
     negb (cacheName =? DYNAMIC_CACHE)%string &&
     negb (cacheName =? CACHE_NAME)%string
  then then_ (caches_delete cacheName) (fun deleted => ret (Some deleted))
  else ret (ret None).

(** The activate handler's promise (lines 39-60). *)
Definition activate : Async unit :=
  await
    (then_
       (then_ caches_keys
          (fun cacheNames => await (Promise_all (map delete_if_old cacheNames))))
       (fun _ => await clients_claim)).

End Worker.

End Pages.

(** ** What batches of cache operations amount to *)

Module Outcomes.
Import JsString Web.

Definition emit_events (es : list Event) (w : World) : World :=
  fold_left (fun w e => emit e w) es w.

(** The values of a list of settled promises, or the first error. *)
Fixpoint first_error {A} (l : list (Settled A)) : Settled (list A) :=
  match l with
  | [] => Resolved []
  | s :: l' =>
      match s, first_error l' with
      | Resolved a, Resolved r => Resolved (a :: r)
      | Rejected e, _ => Rejected e
      | Resolved _, Rejected e => Rejected e
      end
  end.

(** What [cache.add] and [cache.addAll] make of the fetch of a request. *)
Definition accepted (network : Request -> NetOutcome) (request : Request)
    : Settled Response :=
  match network request with
  | Fetched r =>
      if cacheable_by_add r then Resolved r
      else Rejected "TypeError: bad response status"
  | NetworkError e => Rejected e
  end.

Definition put_entry (cache : string) (w : World) (entry : Request * Response) : World :=
  emit (EvPut cache (request_key (fst entry)) (snd entry))
    {| storage := storage_put (storage w) cache (request_key (fst entry)) (snd entry);
       trace := trace w |}.

(** The world after the promise of [cache.addAll(requests)] has settled. *)
Definition addAll_world (network : Request -> NetOutcome) (cache : string)
    (requests : list Request) (w : World) : World :=
  let w1 := emit_events (map (fun request => EvFetchSettled (network request)) requests) w in
  match first_error (map (accepted network) requests) with
  | Resolved responses => fold_left (put_entry cache) (combine requests responses) w1
  | Rejected _ => w1
  end.

(** The storage once the caches whose names fail [keep] are deleted. *)
Definition prune (keep : string -> bool) (cs : CacheStorage) : CacheStorage :=
  filter (fun nc => keep (fst nc)) cs.

(** The names the activation passes keep. *)
Definition portfolio_current (n : string) : bool :=
  (n =? Portfolio.STATIC_CACHE)%string ||
  (n =? Portfolio.DYNAMIC_CACHE)%string ||
  (n =? Portfolio.CACHE_NAME)%string.

Definition pages_current (n : string) : bool :=
  (n =? Pages.STATIC_CACHE)%string ||
  (n =? Pages.DYNAMIC_CACHE)%string ||
  (n =? Pages.CACHE_NAME)%string.

Definition delete_unless (keep : string -> bool) (w : World) (name : string) : World :=
  if keep name then w
  else {| storage := storage_delete (storage w) name; trace := trace w |}.

End Outcomes.

(** ** Sample requests, responses and networks *)

Module Samples.
Import JsString Web.

(** The worker script's own URL. *)
Definition location : URL :=
  mkURL "https:" "portfolio.example" "" "/sw.js" "".

Definition pages_location : URL :=
  mkURL "https:" "debasish-sai.github.io" "" "/native-pwa/sw.js" "".

Definition GET (u : URL) (destination : string) (accept : string) : Request :=
  mkRequest "GET" u destination (Some accept) None.

(** A navigation to a page of the site. *)
Definition about_page : Request :=
  GET (mkURL "https:" "portfolio.example" "" "/about" "") "document" "text/html".

(** An image of the site. *)
Definition photo : Request :=
  GET (mkURL "https:" "portfolio.example" "" "/photo.png" "") "image" "image/*".

(** The Inter stylesheet listed in STATIC_FILES. *)
Definition inter_stylesheet : Request :=
  GET (mkURL "https:" "fonts.googleapis.com" "" "/css2"
         "?family=Inter:wght@300;400;500;600;700&display=swap")
    "style" "text/css".

(** The cross-origin stylesheet listed in the minimal worker's urlsToCache. *)
Definition tailwind_css : Request :=
  GET (mkURL "https:" "cdnjs.cloudflare.com" ""
         "/ajax/libs/tailwindcss/2.2.19/tailwind.min.css" "")
    "style" "text/css".

(** A same-origin API call. *)
Definition api_call : Request :=
  GET (mkURL "https:" "portfolio.example" "" "/api/projects" "") "" "application/json".

(** A share posted to the share target. *)
Definition share_post : Request :=
  mkRequest "POST" (mkURL "https:" "portfolio.example" "" "/share-target" "")
    "document" (Some "text/html")
    (Some [("title", "Hello"); ("text", "A note"); ("url", "https://example.org/")]).

(** A form posted elsewhere. *)
Definition contact_post : Request :=
  mkRequest "POST" (mkURL "https:" "portfolio.example" "" "/api/contact" "")
    "" (Some "application/json") None.

(** A missing image under the GitHub Pages base path. *)
Definition pages_missing : Request :=
  GET (mkURL "https:" "debasish-sai.github.io" "" "/native-pwa/missing.png" "")
    "image" "image/*".

Definition ok_response (body : string) : Response :=
  mkResponse 200 "OK" [("content-type", "text/html")] body.

Definition not_found : Response :=
  mkResponse 404 "Not Found" [("content-type", "text/html")] "Not Found".

Definition fetch_error : Error := "TypeError: Failed to fetch".

(** Networks: always the same answer. *)
Definition online (r : Response) : Request -> NetOutcome := fun _ => Fetched r.
Definition offline : Request -> NetOutcome := fun _ => NetworkError fetch_error.

(** Both of the worker's caches hold the Inter stylesheet, with different
    contents. *)
Definition two_copies : CacheStorage :=
  [(Portfolio.STATIC_CACHE, [(request_key inter_stylesheet, ok_response "precached")]);
   (Portfolio.DYNAMIC_CACHE, [(request_key inter_stylesheet, ok_response "refreshed")])].

Definition static_only (request : Request) (r : Response) : CacheStorage :=
  [(Portfolio.STATIC_CACHE, [(request_key request, r)])].

(** The dynamic cache is empty; the cache named by CACHE_NAME holds the API
    answer. *)
Definition kept_elsewhere : CacheStorage :=
  [(Portfolio.DYNAMIC_CACHE, []);
   (Portfolio.CACHE_NAME, [(request_key api_call, ok_response "kept")])].

End Samples.

(** * Properties *)

Import JsString Web.
Open Scope list_scope.

(** ** The cache storage *)

Lemma key_eqb_refl (k : Key) : key_eqb k k = true.
Proof.
  unfold key_eqb. now rewrite !String.eqb_refl.
Qed.

Lemma cache_match_app (c1 c2 : Cache) (k : Key) :
  cache_match (c1 ++ c2) k =
  match cache_match c1 k with
  | Some r => Some r
  | None => cache_match c2 k
  end.
Proof.
  induction c1 as [|[k' r'] c1 IH]; simpl; [reflexivity|].
  destruct (key_eqb k' k); [reflexivity | exact IH].
Qed.

Lemma cache_match_removed (c : Cache) (k : Key) :
  cache_match (filter (fun e => negb (key_eqb (fst e) k)) c) k = None.
Proof.
  induction c as [|[k' r'] c IH]; simpl; [reflexivity|].
  destruct (key_eqb k' k) eqn:E; simpl; [exact IH|].
  now rewrite E.
Qed.

(** A key that has just been put is found, with the response put. *)
Lemma cache_match_put (c : Cache) (k : Key) (r : Response) :
  cache_match (cache_put c k r) k = Some r.
Proof.
  unfold cache_put.
  rewrite cache_match_app, cache_match_removed. simpl.
  now rewrite key_eqb_refl.
Qed.

Lemma storage_find_app (cs1 cs2 : CacheStorage) (name : string) :
  storage_find (cs1 ++ cs2) name =
  match storage_find cs1 name with
  | Some c => Some c
  | None => storage_find cs2 name
  end.
Proof.
  induction cs1 as [|[n c] cs1 IH]; simpl; [reflexivity|].
  destruct (String.eqb n name); [reflexivity | exact IH].
Qed.

(** Once opened, a cache exists. *)
Lemma storage_find_open (cs : CacheStorage) (name : string) :
  exists c, storage_find (storage_open cs name) name = Some c.
Proof.
  unfold storage_open.
  destruct (storage_find cs name) as [c|] eqn:E.
  - exists c. exact E.
  - exists []. rewrite storage_find_app, E. simpl.
    now rewrite String.eqb_refl.
Qed.

Lemma store_get_put (cs : CacheStorage) (name : string) (k : Key) (r : Response) :
  storage_find cs name <> None ->
  store_get (storage_put cs name k r) name k = Some r.
Proof.
  unfold store_get.
  induction cs as [|[n c] cs IH]; simpl; intros H; [congruence|].
  destruct (String.eqb n name) eqn:E; simpl; rewrite E.
  - apply cache_match_put.
  - apply IH, H.
Qed.

(** A write after [caches.open] lands in the named cache. *)
Lemma store_get_open_put (cs : CacheStorage) (name : string) (k : Key) (r : Response) :
  store_get (storage_put (storage_open cs name) name k r) name k = Some r.
Proof.
  apply store_get_put.
  destruct (storage_find_open cs name) as [c ->]. discriminate.
Qed.

(** A hit in a named cache is a hit for [caches.match]. *)
Lemma store_get_storage_match (cs : CacheStorage) (name : string) (k : Key) (r : Response) :
  store_get cs name k = Some r ->
  exists r', storage_match cs k = Some r'.
Proof.
  unfold store_get.
  induction cs as [|[n c] cs IH]; simpl; [discriminate|].
  destruct (String.eqb n name).
  - intros ->. now exists r.
  - intros H. destruct (cache_match c k) as [r0|]; [now exists r0 | now apply IH].
Qed.

(** When no other cache holds the key, [caches.match] gives the named
    cache's entry. *)
Lemma storage_match_only_holder (cs : CacheStorage) (name : string) (k : Key) (r : Response) :
  store_get cs name k = Some r ->
  (forall n c, In (n, c) cs -> n <> name -> cache_match c k = None) ->
  storage_match cs k = Some r.
Proof.
  unfold store_get.
  induction cs as [|[n c] cs IH]; simpl; [discriminate|].
  destruct (String.eqb n name) eqn:E; intros H Hother.
  - now rewrite H.
  - rewrite (Hother n c); [|now left|].
    + apply IH; [exact H|]. intros n' c' Hin. apply Hother. now right.
    + intros ->. now rewrite String.eqb_refl in E.
Qed.

(** ** The strategies, case by case

    Each equation gives the whole run of a strategy: what it settles with,
    the storage afterwards and the trace. *)

Section PortfolioRuns.

Variable network : Request -> NetOutcome.
Variables (request : Request) (cacheName : string) (cs : CacheStorage).

Ltac run_unfold :=
  cbv [run Portfolio.cacheFirstStrategy Portfolio.networkFirstStrategy
       Portfolio.staleWhileRevalidateStrategy
       try_catch bind await then_ catch_ ret throw forget detach
       caches_match fetch caches_open put
       run_tasks fold_left emit storage trace app clone].

Ltac run_step :=
  match goal with
  | |- context [network ?r] => destruct (network r)
  | |- context [Z.eqb (status ?r) ?b] => destruct (Z.eqb (status r) b)
  | |- context [storage_match cs ?k] => destruct (storage_match cs k)
  | |- context [String.eqb (destination ?r) ?b] =>
      destruct (String.eqb (destination r) b)
  end.

Ltac run_cases := run_unfold; repeat (run_step; run_unfold); reflexivity.

Lemma cacheFirst_run :
  run (Portfolio.cacheFirstStrategy network request cacheName) cs =
  match storage_match cs (request_key request) with
  | Some cached => mkRun _ (Resolved cached) (mkWorld cs [EvReturn])
  | None =>
      match network request with
      | Fetched r =>
          if (status r =? 200)%Z then
            mkRun _ (Resolved r)
              (mkWorld (storage_put (storage_open cs cacheName) cacheName (request_key request) r)
                 [EvFetch request; EvFetchSettled (Fetched r); EvReturn;
                  EvPut cacheName (request_key request) r])
          else
            mkRun _ (Resolved r)
              (mkWorld cs [EvFetch request; EvFetchSettled (Fetched r); EvReturn])
      | NetworkError e =>
          mkRun _
            (Resolved
               (if (destination request =? "document")%string
                then Portfolio.createOfflinePage tt
                else new_Response "Offline" (Some 503%Z) (Some "Service Unavailable") []))
            (mkWorld cs [EvFetch request; EvFetchSettled (NetworkError e); EvReturn])
      end
  end.
Proof. run_cases. Qed.

Lemma networkFirst_run :
  run (Portfolio.networkFirstStrategy network request cacheName) cs =
  match network request with
  | Fetched r =>
      if (status r =? 200)%Z then
        mkRun _ (Resolved r)
          (mkWorld (storage_put (storage_open cs cacheName) cacheName (request_key request) r)
             [EvFetch request; EvFetchSettled (Fetched r); EvReturn;
              EvPut cacheName (request_key request) r])
      else
        mkRun _ (Resolved r)
          (mkWorld cs [EvFetch request; EvFetchSettled (Fetched r); EvReturn])
  | NetworkError e =>
      mkRun _
        (match storage_match cs (request_key request) with
         | Some cached => Resolved cached
         | None => Rejected e
         end)
        (mkWorld cs [EvFetch request; EvFetchSettled (NetworkError e); EvReturn])
  end.
Proof. run_cases. Qed.

Lemma staleWhileRevalidate_run :
  run (Portfolio.staleWhileRevalidateStrategy network request cacheName) cs =
  match storage_match cs (request_key request) with
  | Some cached =>
      match network request with
      | Fetched r =>
          if (status r =? 200)%Z then
            mkRun _ (Resolved cached)
              (mkWorld (storage_put (storage_open cs cacheName) cacheName (request_key request) r)
                 [EvFetch request; EvReturn; EvFetchSettled (Fetched r);
                  EvPut cacheName (request_key request) r])
          else
            mkRun _ (Resolved cached)
              (mkWorld cs [EvFetch request; EvReturn; EvFetchSettled (Fetched r)])
      | NetworkError e =>
          mkRun _ (Resolved cached)
            (mkWorld cs [EvFetch request; EvReturn; EvFetchSettled (NetworkError e)])
      end
  | None =>
      match network request with
      | Fetched r =>
          if (status r =? 200)%Z then
            mkRun _ (Resolved r)
              (mkWorld (storage_put (storage_open cs cacheName) cacheName (request_key request) r)
                 [EvFetch request; EvFetchSettled (Fetched r); EvReturn;
                  EvPut cacheName (request_key request) r])
          else
            mkRun _ (Resolved r)
              (mkWorld cs [EvFetch request; EvFetchSettled (Fetched r); EvReturn])
      | NetworkError e =>
          mkRun _ (Resolved (Portfolio.createOfflinePage tt))
            (mkWorld cs [EvFetch request; EvFetchSettled (NetworkError e); EvReturn])
      end
  end.
Proof. run_cases. Qed.

End PortfolioRuns.

Section OtherRuns.

Variable location : URL.
Variable network : Request -> NetOutcome.
Variables (request : Request) (cs : CacheStorage).

Ltac run_unfold :=
  cbv [run Pages.respond Legacy.respond
       try_catch bind await then_ catch_ ret throw forget detach
       caches_match caches_match_path fetch caches_open put
       run_tasks fold_left emit storage trace app clone].

Ltac run_step :=
  match goal with
  | |- context [network ?r] => destruct (network r)
  | |- context [storage_match cs (request_key ?r)] =>
      destruct (storage_match cs (request_key r))
  | |- context [accept ?r] => destruct (accept r)
  | |- context [includes ?a ?b] => destruct (includes a b)
  end.

Ltac run_cases := run_unfold; repeat (run_step; run_unfold); reflexivity.

Lemma pages_respond_run :
  run (Pages.respond location network request) cs =
  match storage_match cs (request_key request) with
  | Some cached => mkRun _ (Resolved (Some cached)) (mkWorld cs [EvReturn])
  | None =>
      match network request with
      | Fetched r =>
          mkRun _ (Resolved (Some r))
            (mkWorld
               (storage_put (storage_open cs Pages.DYNAMIC_CACHE)
                  Pages.DYNAMIC_CACHE (request_key request) r)
               [EvFetch request; EvFetchSettled (Fetched r); EvReturn;
                EvPut Pages.DYNAMIC_CACHE (request_key request) r])
      | NetworkError e =>
          mkRun _
            (match accept request with
             | None => Rejected "TypeError: Cannot read properties of null"
             | Some a =>
                 if includes a "text/html"
                 then Resolved
                        (storage_match cs
                           ("GET",
                            (origin location ++ (Pages.BASE_URL ++ "index.html"))%string))
                 else Resolved None
             end)
            (mkWorld cs [EvFetch request; EvFetchSettled (NetworkError e); EvReturn])
      end
  end.
Proof. run_cases. Qed.

Lemma legacy_respond_run :
  run (Legacy.respond network request) cs =
  match storage_match cs (request_key request) with
  | Some cached => mkRun _ (Resolved cached) (mkWorld cs [EvReturn])
  | None =>
      match network request with
      | Fetched r =>
          mkRun _ (Resolved r)
            (mkWorld cs [EvFetch request; EvFetchSettled (Fetched r); EvReturn])
      | NetworkError e =>
          mkRun _ (Rejected e)
            (mkWorld cs [EvFetch request; EvFetchSettled (NetworkError e); EvReturn])
      end
  end.
Proof. run_cases. Qed.

End OtherRuns.

(** ** What the strategies write *)

Ltac by_cases_on_run :=
  repeat
    match goal with
    | |- context [match storage_match ?s ?k with _ => _ end] =>
        destruct (storage_match s k)
    | |- context [match ?net ?r with Fetched _ => _ | NetworkError _ => _ end] =>
        destruct (net r) eqn:?
    | |- context [if Z.eqb ?a ?b then _ else _] => destruct (Z.eqb a b) eqn:?
    end.

Lemma portfolio_writes network request cacheName cs n k resp :
  In (n, k, resp)
     (writes (trace (final (run (Portfolio.cacheFirstStrategy network request cacheName) cs)))) \/
  In (n, k, resp)
     (writes (trace (final (run (Portfolio.networkFirstStrategy network request cacheName) cs)))) \/
  In (n, k, resp)
     (writes (trace (final (run (Portfolio.staleWhileRevalidateStrategy network request cacheName) cs)))) ->
  n = cacheName /\ k = request_key request /\
  network request = Fetched resp /\ status resp = 200%Z.
Proof.
  rewrite cacheFirst_run, networkFirst_run, staleWhileRevalidate_run.
  by_cases_on_run; simpl;
    intros [H | [H | H]];
    repeat match goal with H : _ \/ _ |- _ => destruct H end;
    try contradiction;
    match goal with H : (_, _, _) = (_, _, _) |- _ => injection H as <- <- <- end;
    repeat split; try reflexivity; now apply Z.eqb_eq.
Qed.

(** The three strategies of the multi-strategy worker write only responses
    of status 200 that the network returned, into the named cache. *)
Lemma portfolio_writes_status_200 network request cacheName cs n k resp :
  In (n, k, resp)
     (writes (trace (final (run (Portfolio.cacheFirstStrategy network request cacheName) cs)))) \/
  In (n, k, resp)
     (writes (trace (final (run (Portfolio.networkFirstStrategy network request cacheName) cs)))) \/
  In (n, k, resp)
     (writes (trace (final (run (Portfolio.staleWhileRevalidateStrategy network request cacheName) cs)))) ->
  status resp = 200%Z.
Proof.
  intros H. now apply portfolio_writes in H.
Qed.

(** The GitHub Pages worker writes whatever the network returned. *)
Lemma pages_writes_any_status location network request cs resp :
  storage_match cs (request_key request) = None ->
  network request = Fetched resp ->
  writes (trace (final (run (Pages.respond location network request) cs))) =
  [(Pages.DYNAMIC_CACHE, request_key request, resp)].
Proof.
  intros Hmiss Hnet. now rewrite pages_respond_run, Hmiss, Hnet.
Qed.

Lemma pages_writes location network request cs :
  writes_from_network (run (Pages.respond location network request) cs) network request.
Proof.
  unfold writes_from_network. rewrite pages_respond_run.
  by_cases_on_run; simpl; intros n k resp H;
    repeat match goal with H : _ \/ _ |- _ => destruct H end;
    try contradiction.
  injection H as <- <- <-. now split.
Qed.

Lemma legacy_writes network request cs :
  writes (trace (final (run (Legacy.respond network request) cs))) = [].
Proof.
  rewrite legacy_respond_run. by_cases_on_run; reflexivity.
Qed.

(** ** Cache-first *)

(** Both caches hold the Inter stylesheet; a call that names the dynamic
    cache returns the static cache's copy. *)
Example cacheFirst_two_copies :
  store_get Samples.two_copies Portfolio.DYNAMIC_CACHE
    (request_key Samples.inter_stylesheet) = Some (Samples.ok_response "refreshed") /\
  settled (run (Portfolio.cacheFirstStrategy Samples.offline Samples.inter_stylesheet
                  Portfolio.DYNAMIC_CACHE) Samples.two_copies) =
    Resolved (Samples.ok_response "precached").
Proof. split; reflexivity. Qed.

(** C1, as stated, fails.  The claim: whenever the named store holds an
    entry for the request's key, [cacheFirstStrategy] returns that entry and
    fetches nothing.  The strategy calls [caches.match], which searches every
    cache in creation order and takes no cache name: see
    [cacheFirst_two_copies]. *)
Lemma cacheFirst_named_store_counterexample :
  ~ (forall network request cacheName cs r,
        store_get cs cacheName (request_key request) = Some r ->
        settled (run (Portfolio.cacheFirstStrategy network request cacheName) cs) =
          Resolved r /\
        network_calls
          (trace (final (run (Portfolio.cacheFirstStrategy network request cacheName) cs))) = 0).
Proof.
  intros H.
  destruct cacheFirst_two_copies as [Hheld Hret].
  destruct (H Samples.offline Samples.inter_stylesheet Portfolio.DYNAMIC_CACHE
              Samples.two_copies (Samples.ok_response "refreshed") Hheld)
    as [Hclaim _].
  rewrite Hret in Hclaim. discriminate Hclaim.
Qed.

(** C1, amended: whenever the named store holds an entry for the request's
    key, [cacheFirstStrategy] returns at once the first entry for that key
    over all caches in creation order: it issues no fetch, its whole history
    is its return, and the caches are left as they were.  The entry returned
    is the named store's own when no other cache holds the key. *)
Theorem cacheFirst_hit network request cacheName cs r :
  store_get cs cacheName (request_key request) = Some r ->
  exists cached,
    storage_match cs (request_key request) = Some cached /\
    settled (run (Portfolio.cacheFirstStrategy network request cacheName) cs) =
      Resolved cached /\
    network_calls
      (trace (final (run (Portfolio.cacheFirstStrategy network request cacheName) cs))) = 0 /\
    trace (final (run (Portfolio.cacheFirstStrategy network request cacheName) cs)) =
      [EvReturn] /\
    storage (final (run (Portfolio.cacheFirstStrategy network request cacheName) cs)) = cs /\
    ((forall n c, In (n, c) cs -> n <> cacheName ->
                  cache_match c (request_key request) = None) ->
     cached = r).
Proof.
  intros Hget.
  destruct (store_get_storage_match _ _ _ _ Hget) as [cached Hmatch].
  exists cached. rewrite cacheFirst_run, Hmatch. simpl.
  repeat split; try reflexivity.
  intros Hother.
  pose proof (storage_match_only_holder _ _ _ _ Hget Hother) as Hm.
  congruence.
Qed.

(** A hit on a photo held by the static cache alone. *)
Lemma cacheFirst_hit_witness :
  exists cached,
    storage_match (Samples.static_only Samples.photo (Samples.ok_response "png"))
      (request_key Samples.photo) = Some cached /\
    settled (run (Portfolio.cacheFirstStrategy Samples.offline Samples.photo
                    Portfolio.STATIC_CACHE)
               (Samples.static_only Samples.photo (Samples.ok_response "png"))) =
      Resolved cached /\
    network_calls
      (trace (final (run (Portfolio.cacheFirstStrategy Samples.offline Samples.photo
                            Portfolio.STATIC_CACHE)
                       (Samples.static_only Samples.photo (Samples.ok_response "png"))))) = 0 /\
    trace (final (run (Portfolio.cacheFirstStrategy Samples.offline Samples.photo
                         Portfolio.STATIC_CACHE)
                    (Samples.static_only Samples.photo (Samples.ok_response "png")))) =
      [EvReturn] /\
    storage (final (run (Portfolio.cacheFirstStrategy Samples.offline Samples.photo
                           Portfolio.STATIC_CACHE)
                      (Samples.static_only Samples.photo (Samples.ok_response "png")))) =
      Samples.static_only Samples.photo (Samples.ok_response "png") /\
    ((forall n c,
         In (n, c) (Samples.static_only Samples.photo (Samples.ok_response "png")) ->
         n <> Portfolio.STATIC_CACHE ->
         cache_match c (request_key Samples.photo) = None) ->
     cached = Samples.ok_response "png").
Proof.
  apply (cacheFirst_hit Samples.offline Samples.photo Portfolio.STATIC_CACHE
           (Samples.static_only Samples.photo (Samples.ok_response "png"))
           (Samples.ok_response "png")).
  reflexivity.
Defined.

(** C6: on a cache miss, a fetched response of status 200 is written into
    the named store and returned; a fetched response of any other status is
    returned as it is and nothing is written. *)
Theorem cacheFirst_miss_write_through network request cacheName cs r :
  storage_match cs (request_key request) = None ->
  network request = Fetched r ->
  settled (run (Portfolio.cacheFirstStrategy network request cacheName) cs) = Resolved r /\
  (status r = 200%Z ->
   writes (trace (final (run (Portfolio.cacheFirstStrategy network request cacheName) cs))) =
     [(cacheName, request_key request, r)] /\
   store_get
     (storage (final (run (Portfolio.cacheFirstStrategy network request cacheName) cs)))
     cacheName (request_key request) = Some r) /\
  (status r <> 200%Z ->
   writes (trace (final (run (Portfolio.cacheFirstStrategy network request cacheName) cs))) = [] /\
   storage (final (run (Portfolio.cacheFirstStrategy network request cacheName) cs)) = cs).
Proof.
  intros Hmiss Hnet. rewrite cacheFirst_run, Hmiss, Hnet.
  destruct (status r =? 200)%Z eqn:E; simpl.
  - apply Z.eqb_eq in E. split; [reflexivity|]. split.
    + intros _. split; [reflexivity | apply store_get_open_put].
    + intros Hne. contradiction.
  - apply Z.eqb_neq in E. split; [reflexivity|]. split.
    + intros Heq. contradiction.
    + intros _. split; reflexivity.
Qed.

(** A photo fetched with status 200 is stored; a 404 is passed on, unstored. *)
Lemma cacheFirst_miss_write_through_witness :
  settled (run (Portfolio.cacheFirstStrategy (Samples.online (Samples.ok_response "png"))
                  Samples.photo Portfolio.STATIC_CACHE) []) =
    Resolved (Samples.ok_response "png") /\
  store_get
    (storage (final (run (Portfolio.cacheFirstStrategy
                            (Samples.online (Samples.ok_response "png"))
                            Samples.photo Portfolio.STATIC_CACHE) [])))
    Portfolio.STATIC_CACHE (request_key Samples.photo) = Some (Samples.ok_response "png") /\
  settled (run (Portfolio.cacheFirstStrategy (Samples.online Samples.not_found)
                  Samples.photo Portfolio.STATIC_CACHE) []) =
    Resolved Samples.not_found /\
  storage (final (run (Portfolio.cacheFirstStrategy (Samples.online Samples.not_found)
                         Samples.photo Portfolio.STATIC_CACHE) [])) = [].
Proof.
  pose proof (cacheFirst_miss_write_through
                (Samples.online (Samples.ok_response "png"))
                Samples.photo Portfolio.STATIC_CACHE [] (Samples.ok_response "png")
                eq_refl eq_refl) as [Hret [Hok _]].
  pose proof (cacheFirst_miss_write_through
                (Samples.online Samples.not_found)
                Samples.photo Portfolio.STATIC_CACHE [] Samples.not_found
                eq_refl eq_refl) as [Hret' [_ Hko]].
  split; [exact Hret|].
  split; [exact (proj2 (Hok eq_refl))|].
  split; [exact Hret'|].
  apply Hko. discriminate.
Defined.

(** C3: when the cache lookup misses and the fetch throws,
    [cacheFirstStrategy] resolves with the offline page, whose body contains
    "You're Offline", for a request whose destination is "document", and
    with a synthesized 503 response otherwise. *)
Theorem cacheFirst_total_failure network request cacheName cs e :
  storage_match cs (request_key request) = None ->
  network request = NetworkError e ->
  (destination request = "document" ->
   settled (run (Portfolio.cacheFirstStrategy network request cacheName) cs) =
     Resolved (Portfolio.createOfflinePage tt) /\
   includes (body (Portfolio.createOfflinePage tt)) "You're Offline" = true) /\
  (destination request <> "document" ->
   exists r,
     settled (run (Portfolio.cacheFirstStrategy network request cacheName) cs) = Resolved r /\
     status r = 503%Z /\
     statusText r = "Service Unavailable" /\
     body r = "Offline").
Proof.
  intros Hmiss Hnet. rewrite cacheFirst_run, Hmiss, Hnet. simpl settled.
  split.
  - intros ->. split; [reflexivity | now vm_compute].
  - intros Hd. apply String.eqb_neq in Hd. rewrite Hd.
    eexists. repeat split.
Qed.

(** Offline with empty caches: a navigation gets the offline page, a photo a 503. *)
Lemma cacheFirst_total_failure_witness :
  settled (run (Portfolio.cacheFirstStrategy Samples.offline Samples.about_page
                  Portfolio.STATIC_CACHE) []) =
    Resolved (Portfolio.createOfflinePage tt) /\
  exists r,
    settled (run (Portfolio.cacheFirstStrategy Samples.offline Samples.photo
                    Portfolio.STATIC_CACHE) []) = Resolved r /\
    status r = 503%Z.
Proof.
  split.
  - apply (cacheFirst_total_failure Samples.offline Samples.about_page
             Portfolio.STATIC_CACHE [] Samples.fetch_error eq_refl eq_refl).
    reflexivity.
  - destruct (proj2 (cacheFirst_total_failure Samples.offline Samples.photo
                       Portfolio.STATIC_CACHE [] Samples.fetch_error eq_refl eq_refl))
      as [r [Hr [Hs _]]].
    + discriminate.
    + exists r. split; [exact Hr | exact Hs].
Defined.

(** ** Network-first *)

(** The dynamic cache holds no copy of the API call, another cache does:
    offline, network-first naming the dynamic cache resolves with that copy. *)
Example networkFirst_other_cache :
  store_get Samples.kept_elsewhere Portfolio.DYNAMIC_CACHE
    (request_key Samples.api_call) = None /\
  settled (run (Portfolio.networkFirstStrategy Samples.offline Samples.api_call
                  Portfolio.DYNAMIC_CACHE) Samples.kept_elsewhere) =
    Resolved (Samples.ok_response "kept").
Proof. split; reflexivity. Qed.

(** C4, as stated, fails.  The claim: when the fetch throws,
    [networkFirstStrategy] returns the named store's copy if that store holds
    one and otherwise re-throws.  The strategy calls [caches.match], which
    searches every cache and takes no cache name: see
    [networkFirst_other_cache]. *)
Lemma networkFirst_named_store_counterexample :
  ~ (forall network request cacheName cs e,
        network request = NetworkError e ->
        (forall r,
            store_get cs cacheName (request_key request) = Some r ->
            settled (run (Portfolio.networkFirstStrategy network request cacheName) cs) =
              Resolved r) /\
        (store_get cs cacheName (request_key request) = None ->
         settled (run (Portfolio.networkFirstStrategy network request cacheName) cs) =
           Rejected e)).
Proof.
  intros H.
  destruct networkFirst_other_cache as [Hnone Hret].
  destruct (H Samples.offline Samples.api_call Portfolio.DYNAMIC_CACHE
              Samples.kept_elsewhere Samples.fetch_error eq_refl) as [_ Hclaim].
  rewrite (Hclaim Hnone) in Hret. discriminate Hret.
Qed.

(** C4, amended: when the fetch throws, [networkFirstStrategy] resolves with
    the first cached copy of the request over all caches in creation order,
    unchanged, and rejects, with the very error the fetch threw, exactly when
    no cache at all holds the request.  The copy returned is the named store's
    own when no other cache holds the key.  No response is synthesized and
    nothing is written. *)
Theorem networkFirst_network_failure network request cacheName cs e :
  network request = NetworkError e ->
  (forall cached,
      storage_match cs (request_key request) = Some cached ->
      settled (run (Portfolio.networkFirstStrategy network request cacheName) cs) =
        Resolved cached) /\
  (storage_match cs (request_key request) = None ->
   settled (run (Portfolio.networkFirstStrategy network request cacheName) cs) =
     Rejected e) /\
  writes (trace (final (run (Portfolio.networkFirstStrategy network request cacheName) cs))) = [] /\
  storage (final (run (Portfolio.networkFirstStrategy network request cacheName) cs)) = cs /\
  (forall e',
      settled (run (Portfolio.networkFirstStrategy network request cacheName) cs) =
        Rejected e' ->
      e' = e /\ storage_match cs (request_key request) = None) /\
  (forall r,
      store_get cs cacheName (request_key request) = Some r ->
      (forall n c, In (n, c) cs -> n <> cacheName ->
                   cache_match c (request_key request) = None) ->
      settled (run (Portfolio.networkFirstStrategy network request cacheName) cs) =
        Resolved r).
Proof.
  intros Hnet. rewrite networkFirst_run, Hnet. simpl.
  split; [now intros cached ->|].
  split; [now intros ->|].
  split; [reflexivity|]. split; [reflexivity|]. split.
  - intros e' He'.
    destruct (storage_match cs (request_key request)); [discriminate He'|].
    injection He' as <-. split; reflexivity.
  - intros r Hget Hother.
    now rewrite (storage_match_only_holder _ _ _ _ Hget Hother).
Qed.

(** Offline: a stale API answer is served; without one the error comes back. *)
Lemma networkFirst_network_failure_witness :
  settled (run (Portfolio.networkFirstStrategy Samples.offline Samples.api_call
                  Portfolio.DYNAMIC_CACHE)
             [(Portfolio.DYNAMIC_CACHE,
               [(request_key Samples.api_call, Samples.ok_response "stale")])]) =
    Resolved (Samples.ok_response "stale") /\
  settled (run (Portfolio.networkFirstStrategy Samples.offline Samples.api_call
                  Portfolio.DYNAMIC_CACHE) []) =
    Rejected Samples.fetch_error.
Proof.
  split.
  - apply (proj1 (networkFirst_network_failure Samples.offline Samples.api_call
                    Portfolio.DYNAMIC_CACHE _ Samples.fetch_error eq_refl)).
    reflexivity.
  - apply (proj1 (proj2 (networkFirst_network_failure Samples.offline Samples.api_call
                           Portfolio.DYNAMIC_CACHE [] Samples.fetch_error eq_refl))).
    reflexivity.
Defined.

(** ** Stale-while-revalidate *)

(** C5: with a cached copy, [staleWhileRevalidateStrategy] resolves with it
    before the fetch it has issued settles, whatever the network answers;
    with no cached copy and a fetch that fails, it resolves with the offline
    page. *)
Theorem staleWhileRevalidate_result network request cacheName cs :
  (forall cached,
      storage_match cs (request_key request) = Some cached ->
      settled (run (Portfolio.staleWhileRevalidateStrategy network request cacheName) cs) =
        Resolved cached /\
      waited_for_network
        (trace (final (run (Portfolio.staleWhileRevalidateStrategy network request cacheName) cs))) =
        false) /\
  (forall e,
      storage_match cs (request_key request) = None ->
      network request = NetworkError e ->
      settled (run (Portfolio.staleWhileRevalidateStrategy network request cacheName) cs) =
        Resolved (Portfolio.createOfflinePage tt)).
Proof.
  rewrite staleWhileRevalidate_run. split.
  - intros cached ->.
    destruct (network request) as [r|e]; [destruct (status r =? 200)%Z|]; now simpl.
  - intros e -> ->. reflexivity.
Qed.

(** A stale page is served while the fetch is pending; offline with empty
    caches the offline page is served. *)
Lemma staleWhileRevalidate_result_witness :
  (settled (run (Portfolio.staleWhileRevalidateStrategy
                   (Samples.online (Samples.ok_response "fresh"))
                   Samples.about_page Portfolio.DYNAMIC_CACHE)
              [(Portfolio.DYNAMIC_CACHE,
                [(request_key Samples.about_page, Samples.ok_response "stale")])]) =
     Resolved (Samples.ok_response "stale") /\
   waited_for_network
     (trace (final (run (Portfolio.staleWhileRevalidateStrategy
                           (Samples.online (Samples.ok_response "fresh"))
                           Samples.about_page Portfolio.DYNAMIC_CACHE)
                      [(Portfolio.DYNAMIC_CACHE,
                        [(request_key Samples.about_page, Samples.ok_response "stale")])]))) =
     false) /\
  settled (run (Portfolio.staleWhileRevalidateStrategy Samples.offline
                  Samples.about_page Portfolio.DYNAMIC_CACHE) []) =
    Resolved (Portfolio.createOfflinePage tt).
Proof.
  split.
  - apply (staleWhileRevalidate_result (Samples.online (Samples.ok_response "fresh"))
             Samples.about_page Portfolio.DYNAMIC_CACHE).
    reflexivity.
  - apply (proj2 (staleWhileRevalidate_result Samples.offline Samples.about_page
                    Portfolio.DYNAMIC_CACHE []) Samples.fetch_error);
      reflexivity.
Defined.

(** C10: [staleWhileRevalidateStrategy] resolves with a response for every
    request, cache storage and network outcome; [networkFirstStrategy] can
    reject. *)
Theorem staleWhileRevalidate_total :
  (forall network request cacheName cs,
      exists r,
        settled (run (Portfolio.staleWhileRevalidateStrategy network request cacheName) cs) =
          Resolved r) /\
  (exists network request cacheName cs e,
      settled (run (Portfolio.networkFirstStrategy network request cacheName) cs) =
        Rejected e).
Proof.
  split.
  - intros network request cacheName cs. rewrite staleWhileRevalidate_run.
    by_cases_on_run; simpl; eexists; reflexivity.
  - exists Samples.offline, Samples.api_call, Portfolio.DYNAMIC_CACHE, [],
           Samples.fetch_error.
    reflexivity.
Qed.

(** ** The fallback generator *)

(** C9: [createOfflinePage] is a total function with one value: a response
    of status 200 with Content-Type text/html and Cache-Control no-cache
    whose fixed body carries the offline message and the retry button; the
    two scripts that define it agree.  No strategy ever writes it into a
    cache: every write of every strategy, in each of the three workers,
    stores the response that the network returned for the request. *)
Theorem createOfflinePage_contract :
  (forall u u', Portfolio.createOfflinePage u = Portfolio.createOfflinePage u') /\
  Pages.createOfflinePage tt = Portfolio.createOfflinePage tt /\
  status (Portfolio.createOfflinePage tt) = 200%Z /\
  headers_get "Content-Type" (headers (Portfolio.createOfflinePage tt)) = Some "text/html" /\
  headers_get "Cache-Control" (headers (Portfolio.createOfflinePage tt)) = Some "no-cache" /\
  body (Portfolio.createOfflinePage tt) = offline_html /\
  includes offline_html "<h1>You're Offline</h1>" = true /\
  includes offline_html
    "This page isn't available offline. Please check your internet connection and try again."
    = true /\
  includes offline_html "window.location.reload()" = true /\
  includes offline_html "Try Again" = true /\
  (forall network request cacheName cs,
      writes_from_network
        (run (Portfolio.cacheFirstStrategy network request cacheName) cs) network request /\
      writes_from_network
        (run (Portfolio.networkFirstStrategy network request cacheName) cs) network request /\
      writes_from_network
        (run (Portfolio.staleWhileRevalidateStrategy network request cacheName) cs)
        network request) /\
  (forall location network request cs,
      writes_from_network (run (Pages.respond location network request) cs) network request) /\
  (forall network request cs,
      writes_from_network (run (Legacy.respond network request) cs) network request).
Proof.
  split; [now intros [] []|].
  split; [reflexivity|].
  split; [reflexivity|].
  split; [reflexivity|].
  split; [reflexivity|].
  split; [reflexivity|].
  split; [now vm_compute|].
  split; [now vm_compute|].
  split; [now vm_compute|].
  split; [now vm_compute|].
  split; [|split].
  - intros network request cacheName cs. unfold writes_from_network.
    split; [|split]; intros n k resp H;
      destruct (portfolio_writes network request cacheName cs n k resp)
        as (_ & Hk & Hnet & _); auto.
  - intros. apply pages_writes.
  - intros network request cs n k resp H.
    rewrite legacy_writes in H. contradiction.
Qed.

(** ** The classifier *)

(** When the listener's guards pass, the request is handled by the strategy
    of its category. *)
Lemma fetch_listener_classify location network request :
  method request = "GET" ->
  startsWith (request_url request) "http" = true ->
  protocol (url request) <> "chrome-extension:" ->
  Portfolio.fetch_listener location network request =
  Some (Portfolio.strategy_of network (Portfolio.classify location request) request).
Proof.
  intros Hm Hh Hp. unfold Portfolio.fetch_listener, Portfolio.classify.
  rewrite Hm, Hh. apply String.eqb_neq in Hp. rewrite Hp. simpl.
  destruct (Portfolio.isStaticAsset request); [reflexivity|].
  destruct (Portfolio.isFont request); [reflexivity|].
  destruct (Portfolio.isAPIRequest location request); reflexivity.
Qed.

(** The Tailwind stylesheet served by cdnjs is a static asset for a worker
    on another host. *)
Example tailwind_css_classified :
  Portfolio.classify Samples.location Samples.tailwind_css = Portfolio.StaticAsset.
Proof. reflexivity. Qed.

(** C7, as stated, fails.  The claim: a GET request whose path ends in
    ".css" and whose host is not the worker's own is classified ApiRequest.
    The listener tests [isStaticAsset] first, and the extension alone
    satisfies it: see [tailwind_css_classified]. *)
Lemma cross_origin_css_counterexample :
  ~ (forall location request,
        method request = "GET" ->
        endsWith (pathname (url request)) ".css" = true ->
        hostname (url request) <> hostname location ->
        Portfolio.classify location request = Portfolio.ApiRequest).
Proof.
  intros H.
  assert (Hhost : hostname (url Samples.tailwind_css) <> hostname Samples.location)
    by discriminate.
  specialize (H Samples.location Samples.tailwind_css eq_refl eq_refl Hhost).
  rewrite tailwind_css_classified in H. discriminate H.
Qed.

(** C7, amended: every request whose path ends in ".css" is classified
    StaticAsset, whatever its host, and is served cache-first from the static
    store; a request of another host is classified ApiRequest exactly when
    neither the static-asset rule nor the font rule matches it. *)
Theorem css_is_static_asset location network request :
  (endsWith (pathname (url request)) ".css" = true ->
   Portfolio.classify location request = Portfolio.StaticAsset /\
   Portfolio.strategy_of network (Portfolio.classify location request) request =
     Portfolio.cacheFirstStrategy network request Portfolio.STATIC_CACHE) /\
  (hostname (url request) <> hostname location ->
   (Portfolio.classify location request = Portfolio.ApiRequest <->
    Portfolio.isStaticAsset request = false /\ Portfolio.isFont request = false)).
Proof.
  split.
  - intros Hcss.
    assert (Hs : Portfolio.isStaticAsset request = true).
    { unfold Portfolio.isStaticAsset. rewrite Hcss.
      repeat (rewrite ?orb_true_r, ?orb_true_l). reflexivity. }
    unfold Portfolio.classify. rewrite Hs. split; reflexivity.
  - intros Hh. unfold Portfolio.classify, Portfolio.isAPIRequest.
    apply String.eqb_neq in Hh. rewrite Hh, orb_true_r.
    destruct (Portfolio.isStaticAsset request), (Portfolio.isFont request);
      split; try discriminate; try (intros [? ?]; discriminate); auto.
Qed.

(** The Tailwind stylesheet on cdnjs, and a feed on another host. *)
Lemma css_is_static_asset_witness :
  Portfolio.classify Samples.location Samples.tailwind_css = Portfolio.StaticAsset /\
  Portfolio.classify Samples.location
    (Samples.GET (mkURL "https:" "api.example.net" "" "/v1/feed" "") "" "application/json") =
    Portfolio.ApiRequest.
Proof.
  split.
  - apply (proj1 (css_is_static_asset Samples.location Samples.offline
                    Samples.tailwind_css)).
    reflexivity.
  - apply (proj2 (css_is_static_asset Samples.location Samples.offline
                    (Samples.GET (mkURL "https:" "api.example.net" "" "/v1/feed" "")
                       "" "application/json"))).
    + discriminate.
    + split; reflexivity.
Defined.

(** ** Declining *)

Lemma handleShareTarget_run location request cs :
  exists r,
    settled (run (Portfolio.handleShareTarget location request) cs) = Resolved r /\
    status r = 303%Z.
Proof.
  cbv [run Portfolio.handleShareTarget try_catch bind await ret throw
       request_formData].
  destruct (formData request); cbv [run_tasks fold_left emit];
    eexists; split; reflexivity.
Qed.

(** A POST to the share target is answered by the second listener. *)
Example share_post_answered :
  Portfolio.fetch_listener Samples.location Samples.offline Samples.share_post = None /\
  Portfolio.fetch_event Samples.location Samples.offline Samples.share_post =
    Some (Portfolio.handleShareTarget Samples.location Samples.share_post) /\
  settled (run (Portfolio.handleShareTarget Samples.location Samples.share_post) []) =
    Resolved (Response_redirect Samples.location "/?shared=true" 303).
Proof. repeat split. Qed.

(** C8, as stated, fails.  The claim: every request that is not a GET, or
    whose scheme is not http(s), is declined.  The script registers a second
    fetch listener, which answers a POST to /share-target: see
    [share_post_answered]. *)
Lemma decline_rule_counterexample :
  ~ (forall location network request,
        method request <> "GET" \/
        (protocol (url request) <> "http:" /\ protocol (url request) <> "https:") ->
        Portfolio.fetch_event location network request = None).
Proof.
  intros H.
  assert (Hpost : method Samples.share_post <> "GET") by discriminate.
  specialize (H Samples.location Samples.offline Samples.share_post (or_introl Hpost)).
  destruct share_post_answered as (_ & Hanswered & _).
  rewrite Hanswered in H. discriminate H.
Qed.

(** C8, amended: for every request whose method is not GET, or whose URL
    does not begin with "http", the caching listener declines; the event as
    a whole is declined, no listener answering it, unless the request is a
    POST to /share-target, which the share-target listener answers with a
    303 redirect. *)
Theorem decline_rule location network request :
  method request <> "GET" \/ startsWith (request_url request) "http" = false ->
  Portfolio.fetch_listener location network request = None /\
  (~ (pathname (url request) = "/share-target" /\ method request = "POST") ->
   Portfolio.fetch_event location network request = None) /\
  (pathname (url request) = "/share-target" ->
   method request = "POST" ->
   Portfolio.fetch_event location network request =
     Some (Portfolio.handleShareTarget location request) /\
   forall cs,
     exists r,
       settled (run (Portfolio.handleShareTarget location request) cs) = Resolved r /\
       status r = 303%Z).
Proof.
  intros Hguard.
  assert (Hl : Portfolio.fetch_listener location network request = None).
  { unfold Portfolio.fetch_listener.
    destruct Hguard as [Hm | Hh].
    - apply String.eqb_neq in Hm. now rewrite Hm.
    - rewrite Hh. simpl. now destruct (negb (method request =? "GET")%string). }
  split; [exact Hl|].
  unfold Portfolio.fetch_event, Portfolio.share_target_listener. rewrite Hl.
  split.
  - intros Hnot.
    destruct (pathname (url request) =? "/share-target")%string eqn:Ep;
      [|reflexivity].
    destruct (method request =? "POST")%string eqn:Em; [|reflexivity].
    apply String.eqb_eq in Ep, Em. exfalso. apply Hnot. now split.
  - intros Hp Hm. rewrite Hp, Hm. simpl. split; [reflexivity|].
    intros cs. apply handleShareTarget_run.
Qed.

(** A POST to the contact API is declined; a POST to the share target is answered. *)
Lemma decline_rule_witness :
  Portfolio.fetch_event Samples.location Samples.offline Samples.contact_post = None /\
  Portfolio.fetch_event Samples.location Samples.offline Samples.share_post =
    Some (Portfolio.handleShareTarget Samples.location Samples.share_post).
Proof.
  assert (Hc : method Samples.contact_post <> "GET") by discriminate.
  assert (Hs : method Samples.share_post <> "GET") by discriminate.
  split.
  - apply (decline_rule Samples.location Samples.offline Samples.contact_post
             (or_introl Hc)).
    intros [Hp _]. discriminate Hp.
  - apply (decline_rule Samples.location Samples.offline Samples.share_post
             (or_introl Hs)); reflexivity.
Defined.

(** The GitHub Pages worker has the same two guards and no other listener. *)
Lemma pages_decline_rule location network request :
  method request <> "GET" \/ startsWith (request_url request) "http" = false ->
  Pages.fetch_listener location network request = None.
Proof.
  intros [Hm | Hh]; unfold Pages.fetch_listener.
  - apply String.eqb_neq in Hm. now rewrite Hm.
  - rewrite Hh. simpl. now destruct (negb (method request =? "GET")%string).
Qed.

(** The minimal worker answers every request. *)
Lemma legacy_never_declines network request :
  Legacy.fetch_listener network request = Some (Legacy.respond network request).
Proof. reflexivity. Qed.

(** ** The cache invariant *)

(** C2 fails in the GitHub Pages worker.  The claim: whatever a strategy
    writes into a cache is a fetched response of status exactly 200.  The
    Pages listener puts every fetched response without looking at its status:
    a GET of a missing image under the base path, answered 404 by the network,
    leaves the 404 in the dynamic cache, from where it is served afterwards
    even when the network would answer 200. *)
Theorem pages_caches_error_response :
  exists p p',
    Pages.fetch_listener Samples.pages_location (Samples.online Samples.not_found)
      Samples.pages_missing = Some p /\
    status Samples.not_found = 404%Z /\
    settled (run p []) = Resolved (Some Samples.not_found) /\
    writes (trace (final (run p []))) =
      [(Pages.DYNAMIC_CACHE, request_key Samples.pages_missing, Samples.not_found)] /\
    store_get (storage (final (run p []))) Pages.DYNAMIC_CACHE
      (request_key Samples.pages_missing) = Some Samples.not_found /\
    Pages.fetch_listener Samples.pages_location
      (Samples.online (Samples.ok_response "png")) Samples.pages_missing = Some p' /\
    settled (run p' (storage (final (run p [])))) = Resolved (Some Samples.not_found) /\
    network_calls (trace (final (run p' (storage (final (run p [])))))) = 0.
Proof.
  eexists. eexists.
  split; [reflexivity|].
  split; [reflexivity|].
  rewrite !pages_respond_run.
  repeat split.
Qed.

(** * Further properties of the workers *)

(** ** More on the cache storage *)

Lemma key_eqb_eq (a b : Key) : key_eqb a b = true <-> a = b.
Proof.
  destruct a as [a1 a2], b as [b1 b2]. unfold key_eqb. simpl.
  rewrite andb_true_iff, !String.eqb_eq. split.
  - now intros [-> ->].
  - now intros [= -> ->].
Qed.

Lemma key_eqb_neq (a b : Key) : key_eqb a b = false <-> a <> b.
Proof.
  rewrite <- key_eqb_eq. destruct (key_eqb a b); split; congruence.
Qed.

Lemma cache_match_put_other (c : Cache) (k k' : Key) (r : Response) :
  k' <> k -> cache_match (cache_put c k r) k' = cache_match c k'.
Proof.
  intros Hne. unfold cache_put. rewrite cache_match_app. simpl.
  assert (Hk : key_eqb k k' = false) by (apply key_eqb_neq; congruence).
  rewrite Hk.
  assert (Hf : cache_match (filter (fun e => negb (key_eqb (fst e) k)) c) k' =
               cache_match c k').
  { induction c as [|[k0 r0] c IH]; simpl; [reflexivity|].
    destruct (key_eqb k0 k) eqn:E0; simpl.
    - apply key_eqb_eq in E0. subst k0. now rewrite Hk.
    - now rewrite IH. }
  rewrite Hf. now destruct (cache_match c k').
Qed.

(** A write leaves every other entry of every cache as it was. *)
Lemma store_get_put_other (cs : CacheStorage) (name name' : string) (k k' : Key)
    (r : Response) :
  name' <> name \/ k' <> k ->
  store_get (storage_put cs name k r) name' k' = store_get cs name' k'.
Proof.
  intros Hne. unfold store_get.
  induction cs as [|[n c] cs IH]; simpl; [reflexivity|].
  destruct (String.eqb n name) eqn:E; simpl.
  - apply String.eqb_eq in E. subst n.
    destruct (String.eqb name name') eqn:E'; [|reflexivity].
    apply String.eqb_eq in E'. subst name'.
    destruct Hne as [Hn | Hk]; [congruence|].
    now apply cache_match_put_other.
  - destruct (String.eqb n name'); [reflexivity | exact IH].
Qed.

(** Opening a cache changes no lookup: a cache that had to be created is
    empty. *)
Lemma store_get_open (cs : CacheStorage) (name name' : string) (k : Key) :
  store_get (storage_open cs name) name' k = store_get cs name' k.
Proof.
  unfold store_get, storage_open.
  destruct (storage_find cs name) eqn:E; [reflexivity|].
  rewrite storage_find_app. simpl.
  destruct (storage_find cs name') eqn:E'; [reflexivity|].
  now destruct (String.eqb name name').
Qed.

Lemma storage_match_app (cs1 cs2 : CacheStorage) (k : Key) :
  storage_match (cs1 ++ cs2) k =
  match storage_match cs1 k with
  | Some r => Some r
  | None => storage_match cs2 k
  end.
Proof.
  induction cs1 as [|[n c] cs1 IH]; simpl; [reflexivity|].
  destruct (cache_match c k); [reflexivity | exact IH].
Qed.

Lemma storage_match_open (cs : CacheStorage) (name : string) (k : Key) :
  storage_match (storage_open cs name) k = storage_match cs k.
Proof.
  unfold storage_open. destruct (storage_find cs name); [reflexivity|].
  rewrite storage_match_app. simpl. now destruct (storage_match cs k).
Qed.

Lemma storage_find_put (cs : CacheStorage) (name name' : string) (k : Key) (r : Response) :
  storage_find cs name' <> None ->
  storage_find (storage_put cs name k r) name' <> None.
Proof.
  induction cs as [|[n c] cs IH]; simpl; [congruence|].
  destruct (String.eqb n name) eqn:E; simpl;
    destruct (String.eqb n name'); try discriminate; auto.
Qed.

(** A key that no cache held is found, once put, with the response put. *)
Lemma storage_match_put_fresh (cs : CacheStorage) (name : string) (k : Key) (r : Response) :
  storage_match cs k = None ->
  storage_find cs name <> None ->
  storage_match (storage_put cs name k r) k = Some r.
Proof.
  induction cs as [|[n c] cs IH]; simpl; [congruence|].
  destruct (cache_match c k) eqn:Ec; [discriminate|].
  intros Hmiss Hfind.
  destruct (String.eqb n name); simpl.
  - now rewrite cache_match_put.
  - rewrite Ec. now apply IH.
Qed.

Lemma storage_match_open_put_fresh (cs : CacheStorage) (name : string) (k : Key)
    (r : Response) :
  storage_match cs k = None ->
  storage_match (storage_put (storage_open cs name) name k r) k = Some r.
Proof.
  intros Hmiss. apply storage_match_put_fresh.
  - now rewrite storage_match_open.
  - destruct (storage_find_open cs name) as [c ->]. discriminate.
Qed.

(** ** The strategies, continued *)

(** X1.  Network-first write-through: a fetched response of status 200 is
    returned and replaces whatever the named cache held for the request; a
    response of any other status is returned and the caches stay as they
    were.  The caches are not consulted. *)
Theorem networkFirst_write_through network request cacheName cs r :
  network request = Fetched r ->
  settled (run (Portfolio.networkFirstStrategy network request cacheName) cs) = Resolved r /\
  (status r = 200%Z ->
   store_get
     (storage (final (run (Portfolio.networkFirstStrategy network request cacheName) cs)))
     cacheName (request_key request) = Some r) /\
  (status r <> 200%Z ->
   storage (final (run (Portfolio.networkFirstStrategy network request cacheName) cs)) = cs).
Proof.
  intros Hnet. rewrite networkFirst_run, Hnet.
  destruct (status r =? 200)%Z eqn:E; simpl.
  - apply Z.eqb_eq in E. split; [reflexivity|]. split.
    + intros _. apply store_get_open_put.
    + intros Hne. contradiction.
  - apply Z.eqb_neq in E. split; [reflexivity|]. split.
    + intros Heq. contradiction.
    + reflexivity.
Qed.

(** A stale API answer is replaced by a fresh one; a 404 leaves it alone. *)
Lemma networkFirst_write_through_witness :
  store_get
    (storage (final (run (Portfolio.networkFirstStrategy
                            (Samples.online (Samples.ok_response "fresh"))
                            Samples.api_call Portfolio.DYNAMIC_CACHE)
                       [(Portfolio.DYNAMIC_CACHE,
                         [(request_key Samples.api_call, Samples.ok_response "stale")])])))
    Portfolio.DYNAMIC_CACHE (request_key Samples.api_call) =
    Some (Samples.ok_response "fresh") /\
  storage (final (run (Portfolio.networkFirstStrategy (Samples.online Samples.not_found)
                         Samples.api_call Portfolio.DYNAMIC_CACHE)
                    [(Portfolio.DYNAMIC_CACHE,
                      [(request_key Samples.api_call, Samples.ok_response "stale")])])) =
    [(Portfolio.DYNAMIC_CACHE,
      [(request_key Samples.api_call, Samples.ok_response "stale")])].
Proof.
  split.
  - apply (networkFirst_write_through (Samples.online (Samples.ok_response "fresh"))
             Samples.api_call Portfolio.DYNAMIC_CACHE _ (Samples.ok_response "fresh")
             eq_refl).
    reflexivity.
  - apply (networkFirst_write_through (Samples.online Samples.not_found)
             Samples.api_call Portfolio.DYNAMIC_CACHE _ Samples.not_found eq_refl).
    discriminate.
Defined.

(** X2.  Revalidation: with a cached copy, stale-while-revalidate returns the
    copy; once the fetch it left pending has finished, the named cache holds
    the fetched response if its status was 200, and the caches are as they
    were if the status was another or the fetch failed. *)
Theorem staleWhileRevalidate_revalidates network request cacheName cs cached :
  storage_match cs (request_key request) = Some cached ->
  settled (run (Portfolio.staleWhileRevalidateStrategy network request cacheName) cs) =
    Resolved cached /\
  (forall r,
      network request = Fetched r -> status r = 200%Z ->
      store_get
        (storage (final (run (Portfolio.staleWhileRevalidateStrategy network request
                                cacheName) cs)))
        cacheName (request_key request) = Some r) /\
  (forall r,
      network request = Fetched r -> status r <> 200%Z ->
      storage (final (run (Portfolio.staleWhileRevalidateStrategy network request
                             cacheName) cs)) = cs) /\
  (forall e,
      network request = NetworkError e ->
      storage (final (run (Portfolio.staleWhileRevalidateStrategy network request
                             cacheName) cs)) = cs).
Proof.
  intros Hhit. rewrite staleWhileRevalidate_run, Hhit.
  destruct (network request) as [r|e].
  - destruct (status r =? 200)%Z eqn:E; simpl.
    + apply Z.eqb_eq in E. repeat split; try discriminate.
      * intros r' [= <-] _. apply store_get_open_put.
      * intros r' [= <-] Hne. contradiction.
    + apply Z.eqb_neq in E. repeat split; try discriminate.
      intros r' [= <-] Heq. contradiction.
  - simpl. repeat split; discriminate.
Qed.

(** A stale page is served and the dynamic cache refreshed. *)
Lemma staleWhileRevalidate_revalidates_witness :
  settled (run (Portfolio.staleWhileRevalidateStrategy
                  (Samples.online (Samples.ok_response "fresh"))
                  Samples.about_page Portfolio.DYNAMIC_CACHE)
             [(Portfolio.DYNAMIC_CACHE,
               [(request_key Samples.about_page, Samples.ok_response "stale")])]) =
    Resolved (Samples.ok_response "stale") /\
  store_get
    (storage (final (run (Portfolio.staleWhileRevalidateStrategy
                            (Samples.online (Samples.ok_response "fresh"))
                            Samples.about_page Portfolio.DYNAMIC_CACHE)
                       [(Portfolio.DYNAMIC_CACHE,
                         [(request_key Samples.about_page, Samples.ok_response "stale")])])))
    Portfolio.DYNAMIC_CACHE (request_key Samples.about_page) =
    Some (Samples.ok_response "fresh").
Proof.
  pose proof (staleWhileRevalidate_revalidates
                (Samples.online (Samples.ok_response "fresh"))
                Samples.about_page Portfolio.DYNAMIC_CACHE
                [(Portfolio.DYNAMIC_CACHE,
                  [(request_key Samples.about_page, Samples.ok_response "stale")])]
                (Samples.ok_response "stale") eq_refl) as [Hret [Hfresh _]].
  split; [exact Hret|].
  apply (Hfresh (Samples.ok_response "fresh")); reflexivity.
Defined.

(** X3.  Cache-first fetches a request at most once: after a miss answered with
    status 200, the same request is served from the cache, with no fetch,
    whatever the network would answer then. *)
Theorem cacheFirst_second_request_hits network network' request cacheName cs r :
  storage_match cs (request_key request) = None ->
  network request = Fetched r ->
  status r = 200%Z ->
  settled
    (run (Portfolio.cacheFirstStrategy network' request cacheName)
       (storage (final (run (Portfolio.cacheFirstStrategy network request cacheName) cs)))) =
    Resolved r /\
  network_calls
    (trace (final
       (run (Portfolio.cacheFirstStrategy network' request cacheName)
          (storage (final (run (Portfolio.cacheFirstStrategy network request cacheName) cs))))))
    = 0.
Proof.
  intros Hmiss Hnet Hok.
  rewrite (cacheFirst_run network), Hmiss, Hnet.
  apply Z.eqb_eq in Hok. rewrite Hok. simpl storage.
  rewrite cacheFirst_run, (storage_match_open_put_fresh cs cacheName _ r Hmiss).
  split; reflexivity.
Qed.

(** A photo fetched once is served offline afterwards. *)
Lemma cacheFirst_second_request_hits_witness :
  settled
    (run (Portfolio.cacheFirstStrategy Samples.offline Samples.photo Portfolio.STATIC_CACHE)
       (storage (final (run (Portfolio.cacheFirstStrategy
                               (Samples.online (Samples.ok_response "png"))
                               Samples.photo Portfolio.STATIC_CACHE) [])))) =
    Resolved (Samples.ok_response "png").
Proof.
  apply (cacheFirst_second_request_hits (Samples.online (Samples.ok_response "png"))
           Samples.offline Samples.photo Portfolio.STATIC_CACHE []
           (Samples.ok_response "png")); reflexivity.
Defined.

(** X4.  No strategy removes or changes an entry other than the one for its own
    request in the cache it was given. *)
Theorem strategies_keep_other_entries network request cacheName cs name k :
  name <> cacheName \/ k <> request_key request ->
  store_get
    (storage (final (run (Portfolio.cacheFirstStrategy network request cacheName) cs)))
    name k = store_get cs name k /\
  store_get
    (storage (final (run (Portfolio.networkFirstStrategy network request cacheName) cs)))
    name k = store_get cs name k /\
  store_get
    (storage (final (run (Portfolio.staleWhileRevalidateStrategy network request cacheName) cs)))
    name k = store_get cs name k.
Proof.
  intros Hother.
  rewrite cacheFirst_run, networkFirst_run, staleWhileRevalidate_run.
  by_cases_on_run; simpl; repeat split;
    try reflexivity;
    now rewrite (store_get_put_other _ _ _ _ _ _ Hother), store_get_open.
Qed.

(** A fetch of the about page leaves the precached photo in place. *)
Lemma strategies_keep_other_entries_witness :
  store_get
    (storage (final (run (Portfolio.staleWhileRevalidateStrategy
                            (Samples.online (Samples.ok_response "about"))
                            Samples.about_page Portfolio.DYNAMIC_CACHE)
                       (Samples.static_only Samples.photo (Samples.ok_response "png")))))
    Portfolio.STATIC_CACHE (request_key Samples.photo) =
  store_get (Samples.static_only Samples.photo (Samples.ok_response "png"))
    Portfolio.STATIC_CACHE (request_key Samples.photo).
Proof.
  apply (strategies_keep_other_entries (Samples.online (Samples.ok_response "about"))
           Samples.about_page Portfolio.DYNAMIC_CACHE
           (Samples.static_only Samples.photo (Samples.ok_response "png"))
           Portfolio.STATIC_CACHE (request_key Samples.photo)).
  left. discriminate.
Defined.

(** X5.  Every strategy issues at most one fetch, and cache-first, like
    stale-while-revalidate, never rejects. *)
Theorem strategies_fetch_at_most_once network request cacheName cs :
  network_calls
    (trace (final (run (Portfolio.cacheFirstStrategy network request cacheName) cs))) <= 1 /\
  network_calls
    (trace (final (run (Portfolio.networkFirstStrategy network request cacheName) cs))) = 1 /\
  network_calls
    (trace (final (run (Portfolio.staleWhileRevalidateStrategy network request cacheName) cs)))
    = 1 /\
  exists r,
    settled (run (Portfolio.cacheFirstStrategy network request cacheName) cs) = Resolved r.
Proof.
  rewrite cacheFirst_run, networkFirst_run, staleWhileRevalidate_run.
  by_cases_on_run; simpl; repeat split; auto; eexists; reflexivity.
Qed.

(** X6.  The listener writes the responses of static-asset requests into the
    static cache and all others into the dynamic cache, always with status
    200; the cache named by CACHE_NAME is never written. *)
Theorem fetch_listener_store_of_request location network request p cs n k r :
  Portfolio.fetch_listener location network request = Some p ->
  In (n, k, r) (writes (trace (final (run p cs)))) ->
  n = (if Portfolio.isStaticAsset request
       then Portfolio.STATIC_CACHE else Portfolio.DYNAMIC_CACHE) /\
  n <> Portfolio.CACHE_NAME /\
  k = request_key request /\
  status r = 200%Z.
Proof.
  unfold Portfolio.fetch_listener.
  destruct (negb (method request =? "GET")%string); [discriminate|].
  destruct (negb (startsWith (request_url request) "http")); [discriminate|].
  destruct (protocol (url request) =? "chrome-extension:")%string; [discriminate|].
  destruct (Portfolio.isStaticAsset request);
    [|destruct (Portfolio.isFont request);
      [|destruct (Portfolio.isAPIRequest location request)]];
    intros [= <-] Hin;
    match goal with
    | H : In _ (writes (trace (final (run (?f network request ?c) cs)))) |- _ =>
        destruct (portfolio_writes network request c cs n k r) as (-> & -> & _ & Hs);
          [auto|]
    end;
    repeat split; auto; discriminate.
Qed.

(** A photo fetched on a miss goes to the static cache. *)
Lemma fetch_listener_store_of_request_witness :
  Portfolio.STATIC_CACHE =
    (if Portfolio.isStaticAsset Samples.photo
     then Portfolio.STATIC_CACHE else Portfolio.DYNAMIC_CACHE) /\
  Portfolio.STATIC_CACHE <> Portfolio.CACHE_NAME /\
  request_key Samples.photo = request_key Samples.photo /\
  status (Samples.ok_response "png") = 200%Z.
Proof.
  apply (fetch_listener_store_of_request Samples.location
           (Samples.online (Samples.ok_response "png")) Samples.photo
           (Portfolio.cacheFirstStrategy (Samples.online (Samples.ok_response "png"))
              Samples.photo Portfolio.STATIC_CACHE)
           [] Portfolio.STATIC_CACHE (request_key Samples.photo)
           (Samples.ok_response "png")).
  - reflexivity.
  - left. reflexivity.
Defined.

(** ** The classifier's tests *)

Lemma substring_all (s : string) : substring 0 (String.length s) s = s.
Proof. induction s as [|c s IH]; simpl; [reflexivity | now rewrite IH]. Qed.

Lemma substring_after_prefix (pre p : string) :
  substring (String.length pre) (String.length p) (pre ++ p)%string = p.
Proof. induction pre as [|c pre IH]; simpl; [apply substring_all | exact IH]. Qed.

Lemma length_app_string (a b : string) :
  String.length (a ++ b)%string = String.length a + String.length b.
Proof. induction a as [|c a IH]; simpl; [reflexivity | now rewrite IH]. Qed.

Lemma substring_split (s : string) (k : nat) :
  k <= String.length s ->
  s = (substring 0 k s ++ substring k (String.length s - k) s)%string.
Proof.
  revert k. induction s as [|c s IH]; intros [|k] Hk; simpl in *.
  - reflexivity.
  - lia.
  - now rewrite substring_all.
  - f_equal. apply IH. lia.
Qed.

(** [endsWith] holds exactly of the strings that are some prefix followed by
    the suffix. *)
Lemma endsWith_iff (s p : string) :
  endsWith s p = true <-> exists pre, s = (pre ++ p)%string.
Proof.
  unfold endsWith. rewrite andb_true_iff, Nat.leb_le, String.eqb_eq. split.
  - intros [Hle Hsub].
    exists (substring 0 (String.length s - String.length p) s).
    pose proof (substring_split s (String.length s - String.length p)) as H.
    replace (String.length s - (String.length s - String.length p))
      with (String.length p) in H by lia.
    rewrite Hsub in H. apply H. lia.
  - intros [pre ->]. rewrite length_app_string. split; [lia|].
    replace (String.length pre + String.length p - String.length p)
      with (String.length pre) by lia.
    apply substring_after_prefix.
Qed.

(** X7.  A request is a static asset exactly when its path is the root, the
    index or the manifest, or ends in one of six extensions; it passes the
    font test exactly when its host is one of the two font hosts or its path
    ends in one of four extensions.  Neither test looks at the method, the
    query or, for static assets, the host. *)
Theorem static_and_font_tests request :
  (Portfolio.isStaticAsset request = true <->
   In (pathname (url request)) ["/"; "/index.html"; "/manifest.json"] \/
   exists pre ext,
     In ext [".css"; ".js"; ".png"; ".jpg"; ".svg"; ".ico"] /\
     pathname (url request) = (pre ++ ext)%string) /\
  (Portfolio.isFont request = true <->
   In (hostname (url request)) ["fonts.googleapis.com"; "fonts.gstatic.com"] \/
   exists pre ext,
     In ext [".woff"; ".woff2"; ".ttf"; ".otf"] /\
     pathname (url request) = (pre ++ ext)%string).
Proof.
  unfold Portfolio.isStaticAsset, Portfolio.isFont.
  rewrite !orb_true_iff, !String.eqb_eq, !endsWith_iff. simpl.
  split; split.
  - intros H.
    repeat match goal with H : _ \/ _ |- _ => destruct H as [H | H] end;
      try (left; auto; fail);
      destruct H as [pre H]; right; exists pre; eexists; (split; [|exact H]); auto 10.
  - intros [H | (pre & ext & Hin & Hp)].
    + repeat match goal with H : _ \/ _ |- _ => destruct H as [H | H] end;
        try contradiction; auto 10.
    + repeat match goal with H : _ \/ _ |- _ => destruct H as [H | H] end;
        try contradiction; subst ext; eauto 15.
  - intros H.
    repeat match goal with H : _ \/ _ |- _ => destruct H as [H | H] end;
      try (left; auto; fail);
      destruct H as [pre H]; right; exists pre; eexists; (split; [|exact H]); auto 10.
  - intros [H | (pre & ext & Hin & Hp)].
    + repeat match goal with H : _ \/ _ |- _ => destruct H as [H | H] end;
        try contradiction; auto 10.
    + repeat match goal with H : _ \/ _ |- _ => destruct H as [H | H] end;
        try contradiction; subst ext; eauto 15.
Qed.

(** ** The share target *)

(** X8.  [handleShareTarget] always answers with a 303 redirect, to /?shared=true
    when the form data can be read and to / when it cannot; it issues no
    fetch and leaves the caches alone. *)
Theorem handleShareTarget_redirects location request cs :
  run (Portfolio.handleShareTarget location request) cs =
  mkRun _
    (Resolved
       (Response_redirect location
          (match formData request with
           | Some _ => "/?shared=true"
           | None => "/"
           end) 303))
    (mkWorld cs [EvReturn]).
Proof.
  cbv [run Portfolio.handleShareTarget try_catch bind await ret throw
       request_formData].
  destruct (formData request); reflexivity.
Qed.

(** ** The minimal worker *)

(** X9.  The minimal worker's fetch handler never changes a cache; it rejects
    exactly when no cache holds the request and the fetch fails, with the
    fetch's error, and otherwise resolves with the cached response or, on a
    miss, with whatever the network returned. *)
Theorem legacy_respond_read_only network request cs :
  storage (final (run (Legacy.respond network request) cs)) = cs /\
  (forall e,
      settled (run (Legacy.respond network request) cs) = Rejected e <->
      storage_match cs (request_key request) = None /\
      network request = NetworkError e) /\
  (forall r,
      settled (run (Legacy.respond network request) cs) = Resolved r <->
      storage_match cs (request_key request) = Some r \/
      (storage_match cs (request_key request) = None /\ network request = Fetched r)).
Proof.
  rewrite legacy_respond_run.
  destruct (storage_match cs (request_key request)) as [c|];
    [|destruct (network request) as [r0|e0]]; simpl;
    (split; [reflexivity|]); split; intros x; split.
  - discriminate.
  - intros [[=] _].
  - intros [= <-]. now left.
  - intros [[= <-] | [[=] _]]. reflexivity.
  - discriminate.
  - intros [_ [=]].
  - intros [= <-]. right. now split.
  - intros [[=] | [_ [= <-]]]. reflexivity.
  - intros [= <-]. now split.
  - intros [_ [= <-]]. reflexivity.
  - discriminate.
  - intros [[=] | [_ [=]]].
Qed.

(** ** The GitHub Pages worker's fetch handler *)

(** X10.  Every response the Pages handler resolves with was held by a cache or
    returned by the network: the handler synthesizes none, and the offline
    page of the script is never served. *)
Theorem pages_respond_sources location network request cs r :
  settled (run (Pages.respond location network request) cs) = Resolved (Some r) ->
  storage_match cs (request_key request) = Some r \/
  network request = Fetched r \/
  storage_match cs
    ("GET", (origin location ++ (Pages.BASE_URL ++ "index.html"))%string) = Some r.
Proof.
  rewrite pages_respond_run.
  destruct (storage_match cs (request_key request)) as [c|];
    [|destruct (network request) as [r0|e0]]; simpl.
  - intros [= <-]. now left.
  - intros [= <-]. right. now left.
  - destruct (accept request) as [a|]; [|discriminate].
    destruct (includes a "text/html"); [|discriminate].
    intros [= H]. right. now right.
Qed.

Lemma pages_respond_sources_witness :
  storage_match [] (request_key Samples.pages_missing) = Some Samples.not_found \/
  Samples.online Samples.not_found Samples.pages_missing = Fetched Samples.not_found \/
  storage_match []
    ("GET", (origin Samples.pages_location ++ (Pages.BASE_URL ++ "index.html"))%string) =
    Some Samples.not_found.
Proof.
  apply (pages_respond_sources Samples.pages_location (Samples.online Samples.not_found)
           Samples.pages_missing [] Samples.not_found).
  reflexivity.
Defined.

(** X11.  When no cache holds the request and the fetch fails, the Pages handler
    leaves the caches alone and: rejects if the request has no Accept header;
    resolves with the cached index.html of the base path, or with undefined
    when no cache holds it, if Accept mentions text/html; resolves with
    undefined otherwise. *)
Theorem pages_offline_fallback location network request cs e :
  storage_match cs (request_key request) = None ->
  network request = NetworkError e ->
  storage (final (run (Pages.respond location network request) cs)) = cs /\
  (accept request = None ->
   exists err, settled (run (Pages.respond location network request) cs) = Rejected err) /\
  (forall a,
      accept request = Some a -> includes a "text/html" = true ->
      settled (run (Pages.respond location network request) cs) =
        Resolved
          (storage_match cs
             ("GET", (origin location ++ "/native-pwa/index.html")%string))) /\
  (forall a,
      accept request = Some a -> includes a "text/html" = false ->
      settled (run (Pages.respond location network request) cs) = Resolved None).
Proof.
  intros Hmiss Hnet. rewrite pages_respond_run, Hmiss, Hnet. simpl.
  split; [reflexivity|]. split; [|split].
  - intros ->. eexists. reflexivity.
  - intros a -> ->. reflexivity.
  - intros a -> ->. reflexivity.
Qed.

(** Offline, an image request gets undefined. *)
Lemma pages_offline_fallback_witness :
  settled (run (Pages.respond Samples.pages_location Samples.offline
                  Samples.pages_missing) []) = Resolved None.
Proof.
  apply (pages_offline_fallback Samples.pages_location Samples.offline
           Samples.pages_missing [] Samples.fetch_error eq_refl eq_refl)
    with (a := "image/*"); reflexivity.
Defined.

(** ** Notifications *)

Lemma truthy_js_or (a b : Portfolio.JsValue) :
  Portfolio.truthy b = true -> Portfolio.truthy (Portfolio.js_or a b) = true.
Proof.
  intros Hb. unfold Portfolio.js_or.
  now destruct (Portfolio.truthy a) eqn:Ea.
Qed.

Lemma get_property_throws (v : Portfolio.JsValue) (name : string) :
  Portfolio.get_property v name = None <->
  v = Portfolio.JsUndefined \/ v = Portfolio.JsNull.
Proof.
  destruct v; simpl; split; try discriminate; auto;
    intros [H | H]; discriminate H.
Qed.

(** X12.  The push listener does nothing when the event has no data, and
    throws, showing nothing, when the data is not JSON or parses to null.  It
    shows a notification exactly when the data parses to a value that is not
    null.  The title, body, target URL and primaryKey it passes are always
    truthy: never undefined, null, false, 0, NaN or the empty string.  The
    payload's title is passed as given when it is truthy, and is "Portfolio
    Update" otherwise. *)
Theorem push_notification_defaults now event_data :
  (event_data = None -> Portfolio.push_listener now event_data = Portfolio.NothingShown) /\
  (event_data = Some Portfolio.NotJson \/
   event_data = Some (Portfolio.Parsed Portfolio.JsNull) ->
   exists e, Portfolio.push_listener now event_data = Portfolio.PushThrew e) /\
  ((exists title options,
       Portfolio.push_listener now event_data = Portfolio.Shown title options) <->
   (exists v, event_data = Some (Portfolio.Parsed v) /\
              v <> Portfolio.JsNull /\ v <> Portfolio.JsUndefined)) /\
  (forall title options,
      Portfolio.push_listener now event_data = Portfolio.Shown title options ->
      Portfolio.truthy title = true /\
      Portfolio.truthy (Portfolio.opt_body options) = true /\
      Portfolio.truthy (Portfolio.nd_url (Portfolio.data options)) = true /\
      Portfolio.truthy (Portfolio.primaryKey (Portfolio.data options)) = true /\
      Portfolio.dateOfArrival (Portfolio.data options) = now /\
      map Portfolio.action (Portfolio.actions options) = ["explore"; "close"] /\
      forall v t,
        event_data = Some (Portfolio.Parsed v) ->
        Portfolio.get_property v "title" = Some t ->
        title = if Portfolio.truthy t then t else Portfolio.JsString "Portfolio Update").
Proof.
  split; [now intros ->|].
  split; [intros [-> | ->]; eexists; reflexivity|].
  split.
  - split.
    + intros (title & options & H).
      destruct event_data as [[v|]|]; try discriminate H.
      exists v. split; [reflexivity|].
      split; intros ->; discriminate H.
    + intros (v & -> & Hnull & Hundef).
      destruct v; try contradiction; simpl; eauto.
  - intros title options H.
    destruct event_data as [[v|]|]; try discriminate H.
    unfold Portfolio.push_listener in H.
    destruct (Portfolio.get_property v "body") as [body|] eqn:Eb; [|discriminate H].
    destruct (Portfolio.get_property v "image") as [image|]; [|discriminate H].
    destruct (Portfolio.get_property v "primaryKey") as [key|]; [|discriminate H].
    destruct (Portfolio.get_property v "url") as [u|]; [|discriminate H].
    destruct (Portfolio.get_property v "title") as [t|] eqn:Et; [|discriminate H].
    injection H as <- <-. simpl.
    repeat split; try (apply truthy_js_or; reflexivity).
    intros v' t' [= <-] Ht'. rewrite Et in Ht'. now injection Ht' as <-.
Qed.

Lemma find_first {A} (f : A -> bool) (l : list A) (x : A) :
  find f l = Some x ->
  exists before after,
    l = before ++ x :: after /\ f x = true /\ forall y, In y before -> f y = false.
Proof.
  induction l as [|a l IH]; simpl; [discriminate|].
  destruct (f a) eqn:E.
  - intros [= ->]. exists [], l. repeat split; [exact E | contradiction].
  - intros H. destruct (IH H) as (before & after & -> & Hx & Hb).
    exists (a :: before), after. repeat split; [exact Hx|].
    intros y [<- | Hy]; [exact E | now apply Hb].
Qed.

Lemma find_at_first {A} (f : A -> bool) (before after : list A) (x : A) :
  f x = true -> (forall y, In y before -> f y = false) ->
  find f (before ++ x :: after) = Some x.
Proof.
  intros Hx. induction before as [|a before IH]; simpl; intros Hb.
  - now rewrite Hx.
  - rewrite (Hb a (or_introl eq_refl)). apply IH. intros y Hy. apply Hb. now right.
Qed.

Lemma find_nowhere {A} (f : A -> bool) (l : list A) :
  (forall y, In y l -> f y = false) -> find f l = None.
Proof.
  induction l as [|a l IH]; simpl; intros H; [reflexivity|].
  rewrite (H a (or_introl eq_refl)). apply IH. intros y Hy. apply H. now right.
Qed.

(** X13.  A click always closes the notification and touches a window only for
    the "explore" action.  For "explore": when some listed client has the
    target URL and can be focused, the first such client is focused; when none
    has, a window is opened on the target URL if [clients.openWindow] exists,
    and nothing is done to any window if it does not.  Conversely a client is
    focused, or a window opened, in these cases only. *)
Theorem notificationclick_window event_action notification_url clientList openWindow :
  let outcome :=
    Portfolio.notificationclick_listener event_action notification_url clientList
      openWindow in
  let urlToOpen := string_or notification_url "/" in
  Portfolio.notification_closed outcome = true /\
  (event_action <> "explore" -> Portfolio.window outcome = Portfolio.Untouched) /\
  (event_action = "explore" ->
   (forall before client after,
       clientList = before ++ client :: after ->
       Portfolio.client_url client = urlToOpen ->
       Portfolio.has_focus client = true ->
       (forall c, In c before ->
                  Portfolio.client_url c <> urlToOpen \/ Portfolio.has_focus c = false) ->
       Portfolio.window outcome = Portfolio.Focused client) /\
   ((forall c, In c clientList ->
               Portfolio.client_url c <> urlToOpen \/ Portfolio.has_focus c = false) ->
    Portfolio.window outcome =
      if openWindow then Portfolio.Opened urlToOpen else Portfolio.Untouched)) /\
  (forall client,
      Portfolio.window outcome = Portfolio.Focused client ->
      Portfolio.client_url client = urlToOpen /\
      Portfolio.has_focus client = true /\
      exists before after,
        clientList = before ++ client :: after /\
        forall c, In c before ->
                  Portfolio.client_url c <> urlToOpen \/ Portfolio.has_focus c = false) /\
  (forall u,
      Portfolio.window outcome = Portfolio.Opened u ->
      u = urlToOpen /\ openWindow = true /\
      forall c, In c clientList ->
                Portfolio.client_url c <> urlToOpen \/ Portfolio.has_focus c = false).
Proof.
  unfold Portfolio.notificationclick_listener. simpl.
  assert (Hno : forall c : Portfolio.Client,
             Portfolio.client_url c <> string_or notification_url "/" \/
             Portfolio.has_focus c = false ->
             (Portfolio.client_url c =? string_or notification_url "/")%string &&
             Portfolio.has_focus c = false).
  { intros c [Hu | Hf].
    - apply String.eqb_neq in Hu. now rewrite Hu.
    - rewrite Hf. apply andb_false_r. }
  split; [reflexivity|].
  destruct (String.eqb event_action "explore") eqn:Ea.
  - split; [intros Hne; apply String.eqb_neq in Hne; congruence|].
    split.
    { intros _. split.
      - intros before client after -> Hu Hf Hb.
        rewrite (find_at_first _ before after client); [reflexivity| |].
        + rewrite Hu, String.eqb_refl, Hf. reflexivity.
        + intros c Hin. apply Hno. now apply Hb.
      - intros Hnone. rewrite find_nowhere; [reflexivity|].
        intros c Hin. apply Hno. now apply Hnone. }
    destruct (find _ clientList) as [c0|] eqn:Ef.
    + split; [|discriminate].
      intros client [= <-].
      destruct (find_first _ _ _ Ef) as (before & after & Hl & Hc & Hb).
      apply andb_true_iff in Hc as [Hu Hf]. apply String.eqb_eq in Hu.
      repeat split; auto.
      exists before, after. split; [exact Hl|].
      intros c Hin. specialize (Hb c Hin).
      apply andb_false_iff in Hb as [Hb | Hb]; [left | now right].
      now apply String.eqb_neq.
    + destruct openWindow; (split; [discriminate|]); [|discriminate].
      intros u [= <-]. repeat split.
      intros c Hin. pose proof (find_none _ _ Ef c Hin) as Hb. simpl in Hb.
      apply andb_false_iff in Hb as [Hb | Hb]; [left | now right].
      now apply String.eqb_neq.
  - split; [reflexivity|].
    split; [intros Heq; apply String.eqb_neq in Ea; contradiction|].
    split; discriminate.
Qed.

Lemma startsWith_first_char (s p : string) (c d : ascii) :
  startsWith (String c s) (String d p) = true -> c = d.
Proof.
  unfold startsWith. simpl.
  destruct (Ascii.ascii_dec d c) as [->|]; [reflexivity | discriminate].
Qed.

(** X14.  Window clients have absolute URLs.  When the target URL is a path, as is
    the default "/", it equals no client's URL: no window is ever focused, and
    "explore" opens a new window each time. *)
Theorem notificationclick_path_never_focuses notification_url clientList openWindow :
  startsWith (string_or notification_url "/") "/" = true ->
  (forall c, In c clientList -> startsWith (Portfolio.client_url c) "http" = true) ->
  Portfolio.window
    (Portfolio.notificationclick_listener "explore" notification_url clientList openWindow) =
  if openWindow then Portfolio.Opened (string_or notification_url "/")
  else Portfolio.Untouched.
Proof.
  intros Hpath Habs. unfold Portfolio.notificationclick_listener. simpl.
  set (u := string_or notification_url "/") in *.
  assert (Hnone : find (fun client =>
                          (Portfolio.client_url client =? u)%string &&
                          Portfolio.has_focus client) clientList = None).
  { induction clientList as [|c l IH]; simpl; [reflexivity|].
    assert (Hc : (Portfolio.client_url c =? u)%string = false).
    { apply String.eqb_neq. intros Heq.
      specialize (Habs c (or_introl eq_refl)). rewrite Heq in Habs.
      destruct u as [|x u']; [discriminate|].
      apply startsWith_first_char in Hpath.
      apply startsWith_first_char in Habs. subst x. discriminate. }
    rewrite Hc. simpl. apply IH. intros c' Hin. apply Habs. now right. }
  now rewrite Hnone.
Qed.

(** With the site open in a window, a click on "View" for the default URL
    opens another window. *)
Lemma notificationclick_path_never_focuses_witness :
  Portfolio.window
    (Portfolio.notificationclick_listener "explore" None
       [Portfolio.mkClient "https://portfolio.example/" true] true) =
  Portfolio.Opened "/".
Proof.
  apply (notificationclick_path_never_focuses None
           [Portfolio.mkClient "https://portfolio.example/" true] true).
  - reflexivity.
  - intros c [<- | []]. reflexivity.
Defined.


(** ** Batches of promises *)

Import Outcomes.

Section Batches.

Context {X A : Type}.
Variable step : X -> World -> World.

(** Calls that each hand back a promise and change the world by [step]. *)
Lemma issue_all_steps (f : X -> Async (Promise A)) (P : X -> Promise A) :
  (forall x w, f x w = (Resolved (P x), step x w, [])) ->
  forall xs w,
    issue_all (map f xs) w =
    (Resolved (map P xs), fold_left (fun w x => step x w) xs w, []).
Proof.
  intros Hf xs. induction xs as [|x xs IH]; intros w; simpl; [reflexivity|].
  unfold bind. rewrite Hf, IH. reflexivity.
Qed.

(** Promises that never reject. *)
Lemma settle_all_steps (P : X -> Promise A) :
  (forall x w, exists a, P x w = (Resolved a, step x w, [])) ->
  forall xs w,
    exists l,
      settle_all (map P xs) w =
      (Resolved l, fold_left (fun w x => step x w) xs w, []).
Proof.
  intros HP xs. induction xs as [|x xs IH]; intros w; simpl.
  - now exists [].
  - destruct (HP x w) as [a ->]. destruct (IH (step x w)) as [l ->].
    now exists (a :: l).
Qed.

(** Promises whose outcome does not depend on the world. *)
Lemma settle_all_results (P : X -> Promise A) (res : X -> Settled A) :
  (forall x w, P x w = (res x, step x w, [])) ->
  forall xs w,
    settle_all (map P xs) w =
    (first_error (map res xs), fold_left (fun w x => step x w) xs w, []).
Proof.
  intros HP xs. induction xs as [|x xs IH]; intros w; simpl; [reflexivity|].
  rewrite HP, IH. reflexivity.
Qed.

End Batches.

Lemma storage_fold_delete (keep : string -> bool) (names : list string) (w : World) :
  storage (fold_left (delete_unless keep) names w) =
  fold_left (fun cs n => if keep n then cs else storage_delete cs n) names (storage w) /\
  trace (fold_left (delete_unless keep) names w) = trace w.
Proof.
  revert w. induction names as [|n names IH]; intros w; simpl; [now split|].
  destruct (IH (delete_unless keep w n)) as [-> ->].
  unfold delete_unless. now destruct (keep n).
Qed.

Lemma filter_filter_and {A} (f g : A -> bool) (l : list A) :
  filter f (filter g l) = filter (fun x => g x && f x) l.
Proof.
  induction l as [|a l IH]; simpl; [reflexivity|].
  destruct (g a); simpl; [destruct (f a); now rewrite IH | exact IH].
Qed.

(** Deleting, name by name, the listed caches that are not kept leaves the
    caches that are kept or not listed. *)
Lemma fold_delete_filter (keep : string -> bool) (names : list string) (cs : CacheStorage) :
  fold_left (fun cs n => if keep n then cs else storage_delete cs n) names cs =
  filter (fun nc => keep (fst nc) || negb (existsb (String.eqb (fst nc)) names)) cs.
Proof.
  revert cs. induction names as [|n names IH]; intros cs; simpl.
  - symmetry. rewrite <- (filter_ext (fun _ => true)).
    + induction cs as [|a cs IHcs]; simpl; [reflexivity | now rewrite IHcs].
    + intros a. now rewrite orb_true_r.
  - rewrite IH. destruct (keep n) eqn:Ek.
    + apply filter_ext. intros [m c]. simpl.
      destruct (String.eqb m n) eqn:E; [|reflexivity].
      apply String.eqb_eq in E. subst m. now rewrite Ek.
    + unfold storage_delete. rewrite filter_filter_and.
      apply filter_ext. intros [m c]. simpl.
      destruct (String.eqb m n) eqn:E; simpl; [|reflexivity].
      apply String.eqb_eq in E. subst m. now rewrite Ek.
Qed.

(** Run over the names [caches.keys()] lists, the deletions leave exactly the
    caches that are kept. *)
Lemma fold_delete_keys (keep : string -> bool) (cs : CacheStorage) :
  fold_left (fun cs n => if keep n then cs else storage_delete cs n) (storage_keys cs) cs =
  prune keep cs.
Proof.
  rewrite fold_delete_filter. unfold prune. apply filter_ext_in.
  intros [n c] Hin. simpl.
  assert (He : existsb (String.eqb n) (storage_keys cs) = true).
  { apply existsb_exists. exists n. split; [|apply String.eqb_refl].
    unfold storage_keys. change n with (fst (n, c)). now apply in_map. }
  rewrite He. simpl. now rewrite orb_false_r.
Qed.

Lemma caches_delete_step (keep : string -> bool) (f : string -> Async (Promise (option bool))) :
  (forall n, f n = if keep n then ret (ret None)
                   else then_ (caches_delete n) (fun deleted => ret (Some deleted))) ->
  forall names w,
    exists l,
      await (Promise_all (map f names)) w =
      (Resolved l, fold_left (delete_unless keep) names w, []).
Proof.
  intros Hf names w.
  set (P := fun n : string =>
              if keep n then (ret None : Promise (option bool))
              else bind (fun w0 : World =>
                           (Resolved (match storage_find (storage w0) n with
                                      | Some _ => true
                                      | None => false
                                      end),
                            {| storage := storage_delete (storage w0) n;
                               trace := trace w0 |}, []))
                     (fun deleted => ret (Some deleted))).
  assert (Hissue : forall n w0, f n w0 = (Resolved (P n), (fun _ w1 => w1) n w0, [])).
  { intros n w0. rewrite Hf. unfold P. now destruct (keep n). }
  assert (Hsettle : forall n w0, exists a, P n w0 = (Resolved a, (fun n w1 => delete_unless keep w1 n) n w0, [])).
  { intros n w0. unfold P, delete_unless. destruct (keep n); eexists; reflexivity. }
  unfold await, Promise_all, bind.
  rewrite (issue_all_steps (fun _ w1 => w1) f P Hissue).
  assert (Hid : forall (l : list string) (w0 : World),
             fold_left (fun (w1 : World) (_ : string) => w1) l w0 = w0)
    by (induction l; simpl; auto).
  rewrite Hid. simpl.
  destruct (settle_all_steps (fun n w1 => delete_unless keep w1 n) P Hsettle names w)
    as [l Hl].
  rewrite Hl. now exists l.
Qed.

(** ** Activation *)

Lemma portfolio_delete_old_caches :
  exists p : Promise unit,
    (forall w, Portfolio.delete_old_caches w = (Resolved p, w, [])) /\
    (forall w,
        p w = (Resolved tt,
               fold_left (delete_unless portfolio_current) (storage_keys (storage w)) w, [])).
Proof.
  eexists. split.
  - intros w. cbv [Portfolio.delete_old_caches then_ bind ret caches_keys app].
    reflexivity.
  - intros w. cbv beta.
    destruct (caches_delete_step portfolio_current Portfolio.delete_if_old) with
      (names := storage_keys (storage w)) (w := w) as [l Hl].
    { intros n. unfold Portfolio.delete_if_old, portfolio_current.
      now destruct (n =? Portfolio.STATIC_CACHE)%string,
                   (n =? Portfolio.DYNAMIC_CACHE)%string,
                   (n =? Portfolio.CACHE_NAME)%string. }
    rewrite Hl. reflexivity.
Qed.

Lemma portfolio_activate_run (cs : CacheStorage) :
  run Portfolio.activate cs =
  mkRun _ (Resolved tt) (mkWorld (prune portfolio_current cs) [EvReturn]).
Proof.
  destruct portfolio_delete_old_caches as (p & Hissue & Hsettle).
  unfold run, Portfolio.activate, await, then_, Promise_all.
  cbv [issue_all bind ret]. rewrite Hissue.
  cbv [clients_claim ret settle_all app]. rewrite Hsettle.
  cbn [run_tasks fold_left emit app storage trace].
  destruct (storage_fold_delete portfolio_current (storage_keys cs) {| storage := cs; trace := [] |})
    as [Hs Ht].
  cbn [storage trace] in Hs, Ht.
  unfold emit. rewrite Hs, Ht, fold_delete_keys. reflexivity.
Qed.

Lemma pages_activate_run (cs : CacheStorage) :
  run Pages.activate cs =
  mkRun _ (Resolved tt) (mkWorld (prune pages_current cs) [EvReturn]).
Proof.
  unfold run, Pages.activate.
  destruct (caches_delete_step pages_current Pages.delete_if_old) with
    (names := storage_keys cs) (w := {| storage := cs; trace := [] |}) as [l Hl].
  { intros n. unfold Pages.delete_if_old, pages_current.
    now destruct (n =? Pages.STATIC_CACHE)%string,
                 (n =? Pages.DYNAMIC_CACHE)%string,
                 (n =? Pages.CACHE_NAME)%string. }
  cbv [await bind] in Hl.
  cbv [await then_ bind ret caches_keys clients_claim]. cbn [storage].
  rewrite Hl.
  destruct (storage_fold_delete pages_current (storage_keys cs) {| storage := cs; trace := [] |})
    as [Hs Ht].
  cbn [storage trace] in Hs, Ht.
  cbn [run_tasks fold_left app]. unfold emit.
  rewrite Hs, Ht, fold_delete_keys. reflexivity.
Qed.



Lemma storage_find_prune (keep : string -> bool) (cs : CacheStorage) (name : string) :
  storage_find (prune keep cs) name =
  if keep name then storage_find cs name else None.
Proof.
  unfold prune. induction cs as [|[n c] cs IH]; simpl.
  - now destruct (keep name).
  - destruct (keep n) eqn:Ek; simpl;
      destruct (String.eqb n name) eqn:E; try exact IH.
    + apply String.eqb_eq in E. subst n. now rewrite Ek.
    + apply String.eqb_eq in E. subst n. rewrite IH. now rewrite Ek.
Qed.

Lemma storage_match_prune (keep : string -> bool) (cs : CacheStorage) (k : Key)
    (r : Response) :
  storage_match (prune keep cs) k = Some r ->
  exists n c, In (n, c) cs /\ keep n = true /\ cache_match c k = Some r.
Proof.
  unfold prune. induction cs as [|[n c] cs IH]; simpl; [discriminate|].
  destruct (keep n) eqn:Ek; simpl.
  - destruct (cache_match c k) as [r0|] eqn:Ec.
    + intros [= <-]. exists n, c. auto.
    + intros H. destruct (IH H) as (n' & c' & Hin & Hk & Hc).
      exists n', c'. auto.
  - intros H. destruct (IH H) as (n' & c' & Hin & Hk & Hc).
    exists n', c'. auto.
Qed.

(** X15.  Activation of the multi-strategy worker always succeeds, touches no
    network, and leaves exactly the caches named STATIC_CACHE, DYNAMIC_CACHE
    and CACHE_NAME, with their entries and their order: every other cache is
    gone, and [caches.match] answers only from the caches that remain. *)
Theorem portfolio_activate_prunes cs :
  settled (run Portfolio.activate cs) = Resolved tt /\
  trace (final (run Portfolio.activate cs)) = [EvReturn] /\
  storage (final (run Portfolio.activate cs)) =
    filter (fun nc => portfolio_current (fst nc)) cs /\
  (forall name k,
      store_get (storage (final (run Portfolio.activate cs))) name k =
      if portfolio_current name then store_get cs name k else None) /\
  (forall k r,
      storage_match (storage (final (run Portfolio.activate cs))) k = Some r ->
      exists n c, In (n, c) cs /\ portfolio_current n = true /\ cache_match c k = Some r).
Proof.
  rewrite portfolio_activate_run. simpl.
  repeat split.
  - intros name k. unfold store_get. rewrite storage_find_prune.
    now destruct (portfolio_current name).
  - intros k r. apply storage_match_prune.
Qed.

(** X16.  Activation of the GitHub Pages worker does the same with its own three
    names. *)
Theorem pages_activate_prunes cs :
  settled (run Pages.activate cs) = Resolved tt /\
  trace (final (run Pages.activate cs)) = [EvReturn] /\
  storage (final (run Pages.activate cs)) =
    filter (fun nc => pages_current (fst nc)) cs /\
  (forall name k,
      store_get (storage (final (run Pages.activate cs))) name k =
      if pages_current name then store_get cs name k else None) /\
  (forall k r,
      storage_match (storage (final (run Pages.activate cs))) k = Some r ->
      exists n c, In (n, c) cs /\ pages_current n = true /\ cache_match c k = Some r).
Proof.
  rewrite pages_activate_run. simpl.
  repeat split.
  - intros name k. unfold store_get. rewrite storage_find_prune.
    now destruct (pages_current name).
  - intros k r. apply storage_match_prune.
Qed.

(** ** Installation *)

Lemma fold_left_map {A B C} (f : A -> B -> A) (g : C -> B) (l : list C) (a : A) :
  fold_left f (map g l) a = fold_left (fun a x => f a (g x)) l a.
Proof. revert a. induction l; intros; simpl; auto. Qed.

Lemma put_all_run (cache : string) (entries : list (Request * Response)) (w : World) :
  put_all cache entries w = (Resolved tt, fold_left (put_entry cache) entries w, []).
Proof.
  revert w. induction entries as [|[rq r] entries IH]; intros w; simpl; [reflexivity|].
  cbv [bind await put ret]. rewrite IH. reflexivity.
Qed.

(** [cache.addAll]: the call issues one fetch per request; its promise
    settles once all have settled, and stores the responses only if every
    one was accepted. *)
Lemma cache_addAll_spec (network : Request -> NetOutcome) (cache : string) :
  exists P : list Request -> Promise unit,
    forall requests,
      (forall w,
          cache_addAll network cache requests w =
          (Resolved (P requests), emit_events (map EvFetch requests) w, [])) /\
      (forall w,
          P requests w =
          (match first_error (map (accepted network) requests) with
           | Resolved _ => Resolved tt
           | Rejected e => Rejected e
           end,
           addAll_world network cache requests w, [])).
Proof.
  set (check := fun response : Response =>
                  if cacheable_by_add response then ret response
                  else (throw "TypeError: bad response status" : Async Response)).
  set (F := fun request : Request => then_ (fetch network request) check).
  set (Q := fun request : Request =>
              bind (fun w' : World =>
                      let o := network request in
                      match o with
                      | Fetched r => (Resolved r, emit (EvFetchSettled o) w', [])
                      | NetworkError e => (Rejected e, emit (EvFetchSettled o) w', [])
                      end) check).
  assert (HF : forall rq w, F rq w = (Resolved (Q rq), emit (EvFetch rq) w, []))
    by reflexivity.
  assert (HQ : forall rq w,
             Q rq w = (accepted network rq, emit (EvFetchSettled (network rq)) w, [])).
  { intros rq w. unfold Q, accepted, check, bind.
    destruct (network rq) as [r|e]; [|reflexivity].
    now destruct (cacheable_by_add r). }
  exists (fun requests =>
            bind (settle_all (map Q requests))
              (fun responses => put_all cache (combine requests responses))).
  intros requests. split; intros w.
  - unfold cache_addAll, then_, Promise_all. fold check. fold F.
    unfold bind at 1 2.
    rewrite (issue_all_steps (fun rq w => emit (EvFetch rq) w) F Q HF).
    unfold emit_events. rewrite fold_left_map. reflexivity.
  - unfold bind.
    rewrite (settle_all_results (fun rq w => emit (EvFetchSettled (network rq)) w)
               Q (accepted network) HQ).
    unfold addAll_world, emit_events. rewrite fold_left_map.
    destruct (first_error (map (accepted network) requests)) as [rs|e];
      [|reflexivity].
    rewrite put_all_run. reflexivity.
Qed.


Lemma storage_emit_events (es : list Event) (w : World) :
  storage (emit_events es w) = storage w.
Proof.
  unfold emit_events. revert w.
  induction es as [|e es IH]; intros w; simpl; [reflexivity | now rewrite IH].
Qed.

Lemma trace_emit_events (es : list Event) (w : World) :
  trace (emit_events es w) = trace w ++ es.
Proof.
  unfold emit_events. revert w.
  induction es as [|e es IH]; intros w; simpl.
  - now rewrite app_nil_r.
  - rewrite IH. simpl. now rewrite <- app_assoc.
Qed.

Lemma storage_fold_put_entry (cache : string) (entries : list (Request * Response))
    (w : World) :
  storage (fold_left (put_entry cache) entries w) =
  fold_left (fun cs e => storage_put cs cache (request_key (fst e)) (snd e))
    entries (storage w).
Proof.
  revert w. induction entries as [|e entries IH]; intros w; simpl; [reflexivity|].
  now rewrite IH.
Qed.

Lemma trace_fold_put_entry (cache : string) (entries : list (Request * Response))
    (w : World) :
  trace (fold_left (put_entry cache) entries w) =
  trace w ++ map (fun e => EvPut cache (request_key (fst e)) (snd e)) entries.
Proof.
  revert w. induction entries as [|e entries IH]; intros w; simpl.
  - now rewrite app_nil_r.
  - rewrite IH. simpl. now rewrite <- app_assoc.
Qed.

Lemma writes_app (t1 t2 : list Event) : writes (t1 ++ t2) = writes t1 ++ writes t2.
Proof.
  induction t1 as [|e t1 IH]; simpl; [reflexivity|].
  destruct e; simpl; now rewrite IH.
Qed.

Lemma network_calls_app (t1 t2 : list Event) :
  network_calls (t1 ++ t2) = network_calls t1 + network_calls t2.
Proof. unfold network_calls. now rewrite filter_app, length_app. Qed.

Lemma network_calls_fetches (requests : list Request) :
  network_calls (map EvFetch requests) = length requests.
Proof.
  unfold network_calls. induction requests; simpl; [reflexivity | now rewrite IHrequests].
Qed.

Lemma writes_fetches (requests : list Request) : writes (map EvFetch requests) = [].
Proof. induction requests; simpl; auto. Qed.

Lemma writes_settles {X} (f : X -> NetOutcome) (l : list X) :
  writes (map (fun x => EvFetchSettled (f x)) l) = [].
Proof. induction l; simpl; auto. Qed.

Lemma network_calls_settles {X} (f : X -> NetOutcome) (l : list X) :
  network_calls (map (fun x => EvFetchSettled (f x)) l) = 0.
Proof. unfold network_calls. induction l; simpl; auto. Qed.

Lemma network_calls_puts {X} (f : X -> Event) (l : list X) :
  (forall x, exists n k r, f x = EvPut n k r) ->
  network_calls (map f l) = 0.
Proof.
  intros Hf. unfold network_calls. induction l as [|x l IH]; simpl; [reflexivity|].
  destruct (Hf x) as (n & k & r & ->). exact IH.
Qed.

(** *** The outcome of a batch of fetches *)

Lemma first_error_resolved {X A} (f : X -> Settled A) (l : list X) :
  (forall x, In x l -> exists a, f x = Resolved a) ->
  exists rs, first_error (map f l) = Resolved rs /\ map f l = map Resolved rs.
Proof.
  induction l as [|x l IH]; simpl; intros H.
  - now exists [].
  - destruct (H x (or_introl eq_refl)) as [a Ha].
    destruct IH as (rs & Hrs & Hmap); [intros y Hy; apply H; now right|].
    exists (a :: rs). rewrite Ha, Hrs, Hmap. now split.
Qed.

Lemma first_error_rejected {X A} (f : X -> Settled A) (l : list X) (x : X) :
  In x l -> (exists e, f x = Rejected e) ->
  exists e, first_error (map f l) = Rejected e.
Proof.
  induction l as [|y l IH]; simpl; [contradiction|].
  intros [-> | Hin] Hx.
  - destruct Hx as [e ->]. now exists e.
  - destruct (IH Hin Hx) as [e ->].
    destruct (f y) as [a|e']; [now exists e | now exists e'].
Qed.

Lemma combine_resolved {X A} (f : X -> Settled A) (l : list X) (rs : list A) :
  map f l = map Resolved rs ->
  map fst (combine l rs) = l /\
  forall x a, In (x, a) (combine l rs) -> f x = Resolved a.
Proof.
  revert rs. induction l as [|x l IH]; intros [|a rs]; simpl; try discriminate.
  - intros _. split; [reflexivity | contradiction].
  - intros [= Hx Hmap]. destruct (IH rs Hmap) as [Hfst Hin]. split.
    + now rewrite Hfst.
    + intros y b [[= <- <-] | H]; [exact Hx | now apply Hin].
Qed.

Lemma in_combine_resolved {X A} (f : X -> Settled A) (l : list X) (rs : list A)
    (x : X) (a : A) :
  map f l = map Resolved rs -> In x l -> f x = Resolved a ->
  In (x, a) (combine l rs).
Proof.
  revert rs. induction l as [|y l IH]; intros [|b rs]; simpl; try discriminate;
    try contradiction.
  intros [= Hy Hmap] [-> | Hin] Hx.
  - left. congruence.
  - right. now apply IH.
Qed.

(** *** Puts under distinct keys *)

Lemma fold_put_other (cache : string) (entries : list (Request * Response))
    (cs : CacheStorage) (name : string) (k : Key) :
  name <> cache \/ ~ In k (map (fun e => request_key (fst e)) entries) ->
  store_get
    (fold_left (fun cs e => storage_put cs cache (request_key (fst e)) (snd e)) entries cs)
    name k = store_get cs name k.
Proof.
  revert cs. induction entries as [|e entries IH]; intros cs H; simpl; [reflexivity|].
  rewrite IH.
  - apply store_get_put_other. destruct H as [H | H]; [now left|].
    right. intros ->. apply H. now left.
  - destruct H as [H | H]; [now left|]. right. intros Hin. apply H. now right.
Qed.

Lemma fold_put_find (cache : string) (entries : list (Request * Response))
    (cs : CacheStorage) (name : string) :
  storage_find cs name <> None ->
  storage_find
    (fold_left (fun cs e => storage_put cs cache (request_key (fst e)) (snd e)) entries cs)
    name <> None.
Proof.
  revert cs. induction entries as [|e entries IH]; intros cs H; simpl; [exact H|].
  apply IH. now apply storage_find_put.
Qed.

Lemma fold_put_get (cache : string) (entries : list (Request * Response))
    (cs : CacheStorage) (rq : Request) (r : Response) :
  NoDup (map (fun e => request_key (fst e)) entries) ->
  storage_find cs cache <> None ->
  In (rq, r) entries ->
  store_get
    (fold_left (fun cs e => storage_put cs cache (request_key (fst e)) (snd e)) entries cs)
    cache (request_key rq) = Some r.
Proof.
  revert cs. induction entries as [|e entries IH]; intros cs Hnd Hfind; simpl;
    [contradiction|].
  inversion Hnd as [|k ks Hk Hnd']; subst.
  intros [-> | Hin].
  - simpl in *. rewrite fold_put_other by (now right).
    now apply store_get_put.
  - apply IH; [exact Hnd' | now apply storage_find_put | exact Hin].
Qed.


(** *** The installs that use [cache.addAll] *)

Lemma pages_install_run location network cs :
  run (Pages.install location network) cs =
  mkRun _
    (match first_error
             (map (accepted network) (map request_of_url (Pages.STATIC_FILES location))) with
     | Resolved _ => Resolved tt
     | Rejected e => Rejected e
     end)
    (emit EvReturn
       (addAll_world network Pages.STATIC_CACHE
          (map request_of_url (Pages.STATIC_FILES location))
          (emit_events (map EvFetch (map request_of_url (Pages.STATIC_FILES location)))
             {| storage := storage_open cs Pages.STATIC_CACHE; trace := [] |}))).
Proof.
  destruct (cache_addAll_spec network Pages.STATIC_CACHE) as [P HP].
  destruct (HP (map request_of_url (Pages.STATIC_FILES location))) as [Hissue Hsettle].
  unfold run, Pages.install.
  cbv [await then_ bind ret caches_open self_skipWaiting]. cbn [storage trace].
  rewrite Hissue, Hsettle.
  now destruct (first_error _).
Qed.

Lemma legacy_install_run network location cs :
  run (Legacy.install network location) cs =
  mkRun _
    (match first_error
             (map (accepted network) (map request_of_url (Legacy.urlsToCache location))) with
     | Resolved _ => Resolved tt
     | Rejected e => Rejected e
     end)
    (emit EvReturn
       (addAll_world network Legacy.CACHE_NAME
          (map request_of_url (Legacy.urlsToCache location))
          (emit_events (map EvFetch (map request_of_url (Legacy.urlsToCache location)))
             {| storage := storage_open cs Legacy.CACHE_NAME; trace := [] |}))).
Proof.
  destruct (cache_addAll_spec network Legacy.CACHE_NAME) as [P HP].
  destruct (HP (map request_of_url (Legacy.urlsToCache location))) as [Hissue Hsettle].
  unfold run, Legacy.install.
  cbv [await then_ bind ret caches_open]. cbn [storage trace].
  rewrite Hissue, Hsettle.
  now destruct (first_error _).
Qed.

(** What an [addAll] into a freshly opened cache leaves behind: all the
    responses when every fetch was accepted, nothing otherwise; one fetch per
    request either way. *)
Lemma open_addAll_outcome network cache requests cs :
  let w := emit EvReturn
             (addAll_world network cache requests
                (emit_events (map EvFetch requests)
                   {| storage := storage_open cs cache; trace := [] |})) in
  network_calls (trace w) = length requests /\
  ((forall rq, In rq requests -> exists r, accepted network rq = Resolved r) ->
   NoDup (map request_key requests) ->
   (exists rs, first_error (map (accepted network) requests) = Resolved rs) /\
   forall rq r, In rq requests -> accepted network rq = Resolved r ->
                store_get (storage w) cache (request_key rq) = Some r) /\
  (forall rq, In rq requests -> (exists e, accepted network rq = Rejected e) ->
   (exists e, first_error (map (accepted network) requests) = Rejected e) /\
   writes (trace w) = [] /\
   forall name k, store_get (storage w) name k = store_get cs name k).
Proof.
  cbv zeta. unfold addAll_world. split; [|split].
  - destruct (first_error _) as [rs|e]; cbn [emit trace];
      rewrite ?trace_fold_put_entry, !trace_emit_events, !network_calls_app;
      rewrite network_calls_fetches, network_calls_settles;
      cbn [trace]; change (network_calls [EvReturn]) with 0;
      change (network_calls []) with 0.
    + rewrite network_calls_puts; [lia|]. intros x. eauto.
    + lia.
  - intros Hall Hnd.
    destruct (first_error_resolved (accepted network) requests Hall) as (rs & -> & Hmap).
    split; [now exists rs|].
    intros rq r Hin Hacc. cbn [emit storage].
    rewrite storage_fold_put_entry, !storage_emit_events. cbn [storage].
    destruct (combine_resolved _ _ _ Hmap) as [Hfst _].
    apply fold_put_get.
    + rewrite <- (map_map fst request_key), Hfst. exact Hnd.
    + destruct (storage_find_open cs cache) as [c ->]. discriminate.
    + now apply (in_combine_resolved (accepted network)).
  - intros rq Hin Hrej.
    destruct (first_error_rejected (accepted network) requests rq Hin Hrej) as [e ->].
    split; [now exists e|]. cbn [emit storage trace].
    rewrite !trace_emit_events, !storage_emit_events, !writes_app. cbn [storage trace].
    rewrite writes_fetches, writes_settles. split; [reflexivity|].
    intros name k. apply store_get_open.
Qed.


(** *** The keys of the install lists are distinct *)

Lemma app_string_inj (s a b : string) : (s ++ a = s ++ b)%string -> a = b.
Proof. induction s as [|c s IH]; simpl; [auto | intros [= H]; auto]. Qed.

Lemma path_key_neq_literal (o path literal : string) :
  endsWith literal path = false -> (o ++ path)%string <> literal.
Proof.
  intros He Heq. rewrite <- Heq in He.
  assert (Ht : endsWith (o ++ path) path = true) by (apply endsWith_iff; eauto).
  congruence.
Qed.

Lemma app_string_nil_r (s : string) : (s ++ "")%string = s.
Proof. induction s as [|c s IH]; simpl; [reflexivity | now rewrite IH]. Qed.

(** The key under which a path of the worker's own origin is cached. *)
Lemma key_of_path (location : URL) (path : string) :
  request_key (request_of_url (resolve_path location path)) =
  ("GET", (origin location ++ path)%string).
Proof.
  unfold request_key, request_url, href. simpl.
  now rewrite app_string_nil_r.
Qed.

Ltac literal_keys :=
  repeat match goal with
         | |- context [request_key (request_of_url (mkURL ?a ?b ?c ?d ?e))] =>
             let k := eval vm_compute in (request_key (request_of_url (mkURL a b c d e))) in
             change (request_key (request_of_url (mkURL a b c d e))) with k
         end.

Ltac key_clash :=
  match goal with
  | H : False |- _ => contradiction
  | H : _ \/ _ |- _ => destruct H; key_clash
  | H : (_, _) = (_, _) |- _ =>
      let E := fresh "E" in
      injection H as E;
      first [ discriminate E
            | apply app_string_inj in E; discriminate E
            | symmetry in E; revert E; apply path_key_neq_literal; reflexivity
            | revert E; apply path_key_neq_literal; reflexivity ]
  end.

Ltac distinct_keys :=
  repeat constructor; simpl; rewrite ?key_of_path; literal_keys;
  try (intros Hin; key_clash).

Lemma pages_static_keys_distinct location :
  NoDup (map request_key (map request_of_url (Pages.STATIC_FILES location))).
Proof. unfold Pages.STATIC_FILES, Pages.BASE_URL. distinct_keys. Qed.

Lemma legacy_keys_distinct location :
  NoDup (map request_key (map request_of_url (Legacy.urlsToCache location))).
Proof. distinct_keys. Qed.

Lemma portfolio_static_keys_distinct location :
  NoDup (map request_key (map request_of_url (Portfolio.STATIC_FILES location))).
Proof.
  unfold Portfolio.STATIC_FILES, Portfolio.inter_stylesheet_url. distinct_keys.
Qed.


Lemma accepted_resolved network rq r :
  accepted network rq = Resolved r <->
  network rq = Fetched r /\ cacheable_by_add r = true.
Proof.
  unfold accepted. destruct (network rq) as [r0|e].
  - destruct (cacheable_by_add r0) eqn:E; split.
    + intros [= <-]. now split.
    + now intros [[= <-] _].
    + discriminate.
    + intros [[= <-] H]. congruence.
  - split; [discriminate | now intros [[=] _]].
Qed.

Lemma accepted_rejected network rq :
  (forall r, network rq = Fetched r -> cacheable_by_add r = false) ->
  exists e, accepted network rq = Rejected e.
Proof.
  unfold accepted. intros H. destruct (network rq) as [r|e]; [|eauto].
  rewrite (H r eq_refl). eauto.
Qed.

(** What a successful install of the GitHub Pages worker stores. *)
Lemma pages_install_stores location network cs :
  (forall url, In url (Pages.STATIC_FILES location) ->
               exists r, network (request_of_url url) = Fetched r /\
                         cacheable_by_add r = true) ->
  settled (run (Pages.install location network) cs) = Resolved tt /\
  forall url r,
    In url (Pages.STATIC_FILES location) ->
    network (request_of_url url) = Fetched r ->
    store_get (storage (final (run (Pages.install location network) cs)))
      Pages.STATIC_CACHE (request_key (request_of_url url)) = Some r.
Proof.
  intros Hok. rewrite pages_install_run.
  pose proof (open_addAll_outcome network Pages.STATIC_CACHE
                (map request_of_url (Pages.STATIC_FILES location)) cs) as H.
  cbv zeta in H. destruct H as (_ & Hall & _).
  cbn [settled final].
  destruct Hall as [[rs Hrs] Hget].
  - intros rq Hin. apply in_map_iff in Hin as (url & <- & Hin).
    destruct (Hok url Hin) as (r & Hr & Hc). exists r.
    now apply accepted_resolved.
  - apply pages_static_keys_distinct.
  - rewrite Hrs. split; [reflexivity|].
    intros url r Hin Hr. apply Hget; [now apply in_map|].
    apply accepted_resolved. split; [exact Hr|].
    destruct (Hok url Hin) as (r' & Hr' & Hc). congruence.
Qed.

(** X17.  Installation of the GitHub Pages worker is all or nothing.  It fetches
    each of the four listed files once.  If every fetch returns an acceptable
    response, the install succeeds and the static cache holds each file's
    response; if any fetch fails or returns an unacceptable status, the
    install fails and no response at all is stored. *)
Theorem pages_install_all_or_nothing location network cs :
  network_calls (trace (final (run (Pages.install location network) cs))) = 4 /\
  ((forall url, In url (Pages.STATIC_FILES location) ->
                exists r, network (request_of_url url) = Fetched r /\
                          cacheable_by_add r = true) ->
   settled (run (Pages.install location network) cs) = Resolved tt /\
   forall url r,
     In url (Pages.STATIC_FILES location) ->
     network (request_of_url url) = Fetched r ->
     store_get (storage (final (run (Pages.install location network) cs)))
       Pages.STATIC_CACHE (request_key (request_of_url url)) = Some r) /\
  (forall url,
      In url (Pages.STATIC_FILES location) ->
      (forall r, network (request_of_url url) = Fetched r -> cacheable_by_add r = false) ->
      (exists e, settled (run (Pages.install location network) cs) = Rejected e) /\
      writes (trace (final (run (Pages.install location network) cs))) = [] /\
      forall name k,
        store_get (storage (final (run (Pages.install location network) cs))) name k =
        store_get cs name k).
Proof.
  split; [|split].
  - rewrite pages_install_run.
    pose proof (open_addAll_outcome network Pages.STATIC_CACHE
                  (map request_of_url (Pages.STATIC_FILES location)) cs) as H.
    cbv zeta in H. destruct H as (Hcalls & _ & _). exact Hcalls.
  - apply pages_install_stores.
  - intros url Hin Hbad. rewrite pages_install_run.
    pose proof (open_addAll_outcome network Pages.STATIC_CACHE
                  (map request_of_url (Pages.STATIC_FILES location)) cs) as H.
    cbv zeta in H. destruct H as (_ & _ & Hany).
    cbn [settled final].
    destruct (Hany (request_of_url url)) as ([e He] & Hw & Hs).
    + now apply in_map.
    + now apply accepted_rejected.
    + rewrite He. repeat split; eauto.
Qed.

(** Online, the four files are stored; offline, nothing is. *)
Lemma pages_install_all_or_nothing_witness :
  settled (run (Pages.install Samples.pages_location
                  (Samples.online (Samples.ok_response "file"))) []) = Resolved tt /\
  writes (trace (final (run (Pages.install Samples.pages_location Samples.offline) [])))
    = [].
Proof.
  split.
  - apply (pages_install_all_or_nothing Samples.pages_location
             (Samples.online (Samples.ok_response "file")) []).
    intros url _. exists (Samples.ok_response "file"). now split.
  - apply (proj2 (proj2 (pages_install_all_or_nothing Samples.pages_location
                           Samples.offline []))
             (resolve_path Samples.pages_location Pages.BASE_URL)).
    + left. reflexivity.
    + discriminate.
Defined.

(** X18.  Installation of the minimal worker is all or nothing too, over its six
    files. *)
Theorem legacy_install_all_or_nothing network location cs :
  network_calls (trace (final (run (Legacy.install network location) cs))) = 6 /\
  ((forall url, In url (Legacy.urlsToCache location) ->
                exists r, network (request_of_url url) = Fetched r /\
                          cacheable_by_add r = true) ->
   settled (run (Legacy.install network location) cs) = Resolved tt /\
   forall url r,
     In url (Legacy.urlsToCache location) ->
     network (request_of_url url) = Fetched r ->
     store_get (storage (final (run (Legacy.install network location) cs)))
       Legacy.CACHE_NAME (request_key (request_of_url url)) = Some r) /\
  (forall url,
      In url (Legacy.urlsToCache location) ->
      (forall r, network (request_of_url url) = Fetched r -> cacheable_by_add r = false) ->
      (exists e, settled (run (Legacy.install network location) cs) = Rejected e) /\
      writes (trace (final (run (Legacy.install network location) cs))) = [] /\
      forall name k,
        store_get (storage (final (run (Legacy.install network location) cs))) name k =
        store_get cs name k).
Proof.
  rewrite legacy_install_run.
  pose proof (open_addAll_outcome network Legacy.CACHE_NAME
                (map request_of_url (Legacy.urlsToCache location)) cs) as H.
  cbv zeta in H. destruct H as (Hcalls & Hall & Hany).
  cbn [settled final]. split; [exact Hcalls|]. split.
  - intros Hok.
    destruct Hall as [[rs Hrs] Hget].
    + intros rq Hin. apply in_map_iff in Hin as (url & <- & Hin).
      destruct (Hok url Hin) as (r & Hr & Hc). exists r.
      now apply accepted_resolved.
    + apply legacy_keys_distinct.
    + rewrite Hrs. split; [reflexivity|].
      intros url r Hin Hr. apply Hget; [now apply in_map|].
      apply accepted_resolved. split; [exact Hr|].
      destruct (Hok url Hin) as (r' & Hr' & Hc). congruence.
  - intros url Hin Hbad.
    destruct (Hany (request_of_url url)) as ([e He] & Hw & Hs).
    + now apply in_map.
    + now apply accepted_rejected.
    + rewrite He. repeat split; eauto.
Qed.

(** Offline, nothing is cached. *)
Lemma legacy_install_all_or_nothing_witness :
  writes (trace (final (run (Legacy.install Samples.offline Samples.location) []))) = [].
Proof.
  apply (proj2 (proj2 (legacy_install_all_or_nothing Samples.offline Samples.location []))
           (resolve_path Samples.location "/")).
  - left. reflexivity.
  - discriminate.
Defined.




(** *** The install that adds file by file *)

Lemma allSettled_adds network cache urls w :
  exists l,
    await (Promise_allSettled (map (Portfolio.add_or_skip network cache) urls)) w =
    (Resolved l,
     fold_left (fun w url => addAll_world network cache [request_of_url url] w) urls
       (emit_events (map EvFetch (map request_of_url urls)) w),
     []).
Proof.
  destruct (cache_addAll_spec network cache) as [P HP].
  set (Q := fun url : URL =>
              try_catch (P [request_of_url url]) (fun err : Error => ret tt)).
  set (wrap := fun p : Promise unit =>
                 try_catch (a <- p ;; ret (Resolved a))
                   (fun e : Error => ret (Rejected e : Settled unit))).
  assert (Hissue : forall url w0,
             Portfolio.add_or_skip network cache url w0 =
             (Resolved (Q url), emit (EvFetch (request_of_url url)) w0, [])).
  { intros url w0. unfold Portfolio.add_or_skip, catch_, cache_add, bind.
    destruct (HP [request_of_url url]) as [Hi _]. rewrite Hi. reflexivity. }
  assert (Hsettle : forall url w0,
             exists s,
               wrap (Q url) w0 =
               (Resolved s, addAll_world network cache [request_of_url url] w0, [])).
  { intros url w0. unfold wrap, Q, try_catch, bind.
    destruct (HP [request_of_url url]) as [_ Hs]. rewrite Hs. simpl.
    destruct (accepted network (request_of_url url)); eexists; reflexivity. }
  unfold await, Promise_allSettled. fold wrap. unfold bind.
  rewrite (issue_all_steps (fun url w0 => emit (EvFetch (request_of_url url)) w0)
             _ Q Hissue).
  cbn [ret]. rewrite map_map.
  destruct (settle_all_steps
              (fun url w0 => addAll_world network cache [request_of_url url] w0)
              (fun url => wrap (Q url)) Hsettle urls
              (fold_left (fun w0 url => emit (EvFetch (request_of_url url)) w0) urls w))
    as [l Hl].
  exists l. unfold Promise in *. rewrite Hl.
  unfold emit_events. rewrite map_map, fold_left_map. reflexivity.
Qed.


Lemma portfolio_cache_static_files location network :
  exists p : Promise unit,
    (forall w, Portfolio.cache_static_files location network w = (Resolved p, w, [])) /\
    (forall w,
        p w =
        (Resolved tt,
         fold_left
           (fun w url => addAll_world network Portfolio.STATIC_CACHE [request_of_url url] w)
           (Portfolio.STATIC_FILES location)
           (emit_events (map EvFetch (map request_of_url (Portfolio.STATIC_FILES location)))
              {| storage := storage_open (storage w) Portfolio.STATIC_CACHE;
                 trace := trace w |}),
         [])).
Proof.
  eexists. split.
  - intros w. cbv [Portfolio.cache_static_files then_ bind ret caches_open app].
    reflexivity.
  - intros w. cbv beta.
    destruct (allSettled_adds network Portfolio.STATIC_CACHE
                (Portfolio.STATIC_FILES location)
                {| storage := storage_open (storage w) Portfolio.STATIC_CACHE;
                   trace := trace w |}) as [l Hl].
    rewrite Hl. reflexivity.
Qed.

Lemma portfolio_install_run location network cs :
  run (Portfolio.install location network) cs =
  mkRun _ (Resolved tt)
    (emit EvReturn
       {| storage :=
            storage_open
              (storage
                 (fold_left
                    (fun w url =>
                       addAll_world network Portfolio.STATIC_CACHE [request_of_url url] w)
                    (Portfolio.STATIC_FILES location)
                    (emit_events
                       (map EvFetch (map request_of_url (Portfolio.STATIC_FILES location)))
                       {| storage := storage_open cs Portfolio.STATIC_CACHE;
                          trace := [] |})))
              Portfolio.DYNAMIC_CACHE;
          trace :=
            trace
              (fold_left
                 (fun w url =>
                    addAll_world network Portfolio.STATIC_CACHE [request_of_url url] w)
                 (Portfolio.STATIC_FILES location)
                 (emit_events
                    (map EvFetch (map request_of_url (Portfolio.STATIC_FILES location)))
                    {| storage := storage_open cs Portfolio.STATIC_CACHE;
                       trace := [] |})) |}).
Proof.
  destruct (portfolio_cache_static_files location network) as (p & Hissue & Hsettle).
  unfold run, Portfolio.install, await, then_, Promise_all.
  cbv [issue_all bind ret]. rewrite Hissue.
  cbv [Portfolio.prepare_dynamic_cache then_ caches_open bind ret settle_all
       self_skipWaiting app].
  rewrite Hsettle. cbn [storage trace run_tasks fold_left]. reflexivity.
Qed.


Lemma storage_add_one network cache rq w :
  storage (addAll_world network cache [rq] w) =
  match accepted network rq with
  | Resolved r => storage_put (storage w) cache (request_key rq) r
  | Rejected _ => storage w
  end.
Proof.
  unfold addAll_world. simpl.
  destruct (accepted network rq); reflexivity.
Qed.

Lemma storage_fold_add network cache urls w :
  storage (fold_left (fun w url => addAll_world network cache [request_of_url url] w) urls w) =
  fold_left
    (fun cs url =>
       match accepted network (request_of_url url) with
       | Resolved r => storage_put cs cache (request_key (request_of_url url)) r
       | Rejected _ => cs
       end) urls (storage w).
Proof.
  revert w. induction urls as [|url urls IH]; intros w; simpl; [reflexivity|].
  now rewrite IH, storage_add_one.
Qed.

Section FileByFile.

Variable network : Request -> NetOutcome.
Variable cache : string.

Let add (cs : CacheStorage) (url : URL) : CacheStorage :=
  match accepted network (request_of_url url) with
  | Resolved r => storage_put cs cache (request_key (request_of_url url)) r
  | Rejected _ => cs
  end.

Lemma fold_add_other urls cs name k :
  name <> cache \/ ~ In k (map request_key (map request_of_url urls)) ->
  store_get (fold_left add urls cs) name k = store_get cs name k.
Proof.
  revert cs. induction urls as [|url urls IH]; intros cs H; simpl; [reflexivity|].
  rewrite IH.
  - unfold add. destruct (accepted network (request_of_url url)); [|reflexivity].
    apply store_get_put_other. destruct H as [H | H]; [now left|].
    right. intros ->. apply H. now left.
  - destruct H as [H | H]; [now left|]. right. intros Hin. apply H. now right.
Qed.

Lemma fold_add_find urls cs name :
  storage_find cs name <> None -> storage_find (fold_left add urls cs) name <> None.
Proof.
  revert cs. induction urls as [|url urls IH]; intros cs H; simpl; [exact H|].
  apply IH. unfold add. destruct (accepted network (request_of_url url)); [|exact H].
  now apply storage_find_put.
Qed.

Lemma fold_add_get urls cs url :
  NoDup (map request_key (map request_of_url urls)) ->
  storage_find cs cache <> None ->
  In url urls ->
  store_get (fold_left add urls cs) cache (request_key (request_of_url url)) =
  match accepted network (request_of_url url) with
  | Resolved r => Some r
  | Rejected _ => store_get cs cache (request_key (request_of_url url))
  end.
Proof.
  revert cs. induction urls as [|u urls IH]; intros cs Hnd Hfind; simpl; [contradiction|].
  inversion Hnd as [|k ks Hk Hnd']; subst.
  intros [-> | Hin].
  - rewrite fold_add_other by (now right). unfold add.
    destruct (accepted network (request_of_url url)); [|reflexivity].
    now apply store_get_put.
  - rewrite IH; [|exact Hnd'| |exact Hin].
    + destruct (accepted network (request_of_url url)); [reflexivity|].
      unfold add. destruct (accepted network (request_of_url u)); [|reflexivity].
      apply store_get_put_other. right. intros Heq. apply Hk.
      rewrite <- Heq. now apply in_map, in_map.
    + unfold add. destruct (accepted network (request_of_url u)); [|exact Hfind].
      now apply storage_find_put.
Qed.

End FileByFile.

Lemma storage_find_open_other cs name name' :
  storage_find cs name <> None -> storage_find (storage_open cs name') name <> None.
Proof.
  intros H. unfold storage_open. destruct (storage_find cs name'); [exact H|].
  rewrite storage_find_app. now destruct (storage_find cs name).
Qed.

(** A listed file fetched acceptably at install is in the static cache. *)
Lemma portfolio_install_stores location network cs url r :
  In url (Portfolio.STATIC_FILES location) ->
  network (request_of_url url) = Fetched r ->
  cacheable_by_add r = true ->
  store_get (storage (final (run (Portfolio.install location network) cs)))
    Portfolio.STATIC_CACHE (request_key (request_of_url url)) = Some r.
Proof.
  intros Hin Hr Hc.
  rewrite portfolio_install_run. cbn [final emit storage].
  rewrite storage_fold_add, storage_emit_events. cbn [storage].
  rewrite store_get_open.
  rewrite (fold_add_get network Portfolio.STATIC_CACHE _ _ url
             (portfolio_static_keys_distinct location)); [| |exact Hin].
  - now rewrite (proj2 (accepted_resolved network (request_of_url url) r) (conj Hr Hc)).
  - destruct (storage_find_open cs Portfolio.STATIC_CACHE) as [c ->]. discriminate.
Qed.

(** X20.  Installation of the multi-strategy worker never fails.  Afterwards both
    of its caches exist; each listed file whose fetch returned an acceptable
    response is in the static cache with that response; a file whose fetch
    failed or was refused is skipped, its entry left as it was; and no other
    entry of any cache has changed. *)
Theorem portfolio_install_best_effort location network cs :
  settled (run (Portfolio.install location network) cs) = Resolved tt /\
  storage_find (storage (final (run (Portfolio.install location network) cs)))
    Portfolio.STATIC_CACHE <> None /\
  storage_find (storage (final (run (Portfolio.install location network) cs)))
    Portfolio.DYNAMIC_CACHE <> None /\
  (forall url,
      In url (Portfolio.STATIC_FILES location) ->
      (forall r,
          network (request_of_url url) = Fetched r -> cacheable_by_add r = true ->
          store_get (storage (final (run (Portfolio.install location network) cs)))
            Portfolio.STATIC_CACHE (request_key (request_of_url url)) = Some r) /\
      ((forall r, network (request_of_url url) = Fetched r -> cacheable_by_add r = false) ->
       store_get (storage (final (run (Portfolio.install location network) cs)))
         Portfolio.STATIC_CACHE (request_key (request_of_url url)) =
       store_get cs Portfolio.STATIC_CACHE (request_key (request_of_url url)))) /\
  (forall name k,
      name <> Portfolio.STATIC_CACHE \/
      ~ In k (map request_key (map request_of_url (Portfolio.STATIC_FILES location))) ->
      store_get (storage (final (run (Portfolio.install location network) cs))) name k =
      store_get cs name k).
Proof.
  rewrite portfolio_install_run. cbn [settled final emit storage].
  rewrite storage_fold_add, storage_emit_events. cbn [storage].
  assert (Hopen : storage_find (storage_open cs Portfolio.STATIC_CACHE)
                    Portfolio.STATIC_CACHE <> None).
  { destruct (storage_find_open cs Portfolio.STATIC_CACHE) as [c ->]. discriminate. }
  split; [reflexivity|]. split; [|split; [|split]].
  - apply storage_find_open_other. now apply fold_add_find.
  - destruct (storage_find_open
                (fold_left
                   (fun cs0 url =>
                      match accepted network (request_of_url url) with
                      | Resolved r =>
                          storage_put cs0 Portfolio.STATIC_CACHE
                            (request_key (request_of_url url)) r
                      | Rejected _ => cs0
                      end)
                   (Portfolio.STATIC_FILES location)
                   (storage_open cs Portfolio.STATIC_CACHE))
                Portfolio.DYNAMIC_CACHE) as [c ->].
    discriminate.
  - intros url Hin. rewrite store_get_open.
    rewrite (fold_add_get network Portfolio.STATIC_CACHE _ _ url
               (portfolio_static_keys_distinct location) Hopen Hin).
    rewrite store_get_open. split.
    + intros r Hr Hc.
      now rewrite (proj2 (accepted_resolved network (request_of_url url) r) (conj Hr Hc)).
    + intros Hbad. now destruct (accepted_rejected network _ Hbad) as [e ->].
  - intros name k Hother. rewrite store_get_open, fold_add_other by exact Hother.
    apply store_get_open.
Qed.


(** With the manifest unreachable, the index page is still cached. *)
Lemma portfolio_install_best_effort_witness :
  store_get
    (storage (final (run (Portfolio.install Samples.location
                            (fun request =>
                               if (pathname (url request) =? "/manifest.json")%string
                               then NetworkError Samples.fetch_error
                               else Fetched (Samples.ok_response "file"))) [])))
    Portfolio.STATIC_CACHE
    (request_key (request_of_url (resolve_path Samples.location "/index.html"))) =
  Some (Samples.ok_response "file").
Proof.
  apply (portfolio_install_best_effort Samples.location
           (fun request =>
              if (pathname (url request) =? "/manifest.json")%string
              then NetworkError Samples.fetch_error
              else Fetched (Samples.ok_response "file")) []).
  - right. left. reflexivity.
  - reflexivity.
  - reflexivity.
Defined.

Lemma in_storage_put cs name k r n c :
  In (n, c) (storage_put cs name k r) -> n <> name -> In (n, c) cs.
Proof.
  induction cs as [|[n0 c0] cs IH]; simpl; [auto|].
  destruct (String.eqb n0 name) eqn:E; simpl.
  - apply String.eqb_eq in E. subst n0.
    intros [[= <- _] | H] Hne; [contradiction | now right].
  - intros [H | H] Hne; [now left | right; now apply IH].
Qed.

Lemma in_storage_open cs name n c :
  In (n, c) (storage_open cs name) -> In (n, c) cs \/ c = [].
Proof.
  unfold storage_open. destruct (storage_find cs name); [now left|].
  intros H. apply in_app_or in H as [H | [[= _ <-] | []]]; [now left | now right].
Qed.

Lemma in_fold_add network cache urls cs n c :
  In (n, c)
    (fold_left
       (fun cs url =>
          match accepted network (request_of_url url) with
          | Resolved r => storage_put cs cache (request_key (request_of_url url)) r
          | Rejected _ => cs
          end) urls cs) ->
  n <> cache -> In (n, c) cs.
Proof.
  revert cs. induction urls as [|url urls IH]; intros cs; simpl; [auto|].
  intros H Hne. specialize (IH _ H Hne).
  destruct (accepted network (request_of_url url)); [|exact IH].
  now apply in_storage_put in IH.
Qed.

(** Installation brings no copy of a key into a cache other than the static
    cache. *)
Lemma portfolio_install_other_caches location network cs k :
  (forall n c, In (n, c) cs -> n <> Portfolio.STATIC_CACHE -> cache_match c k = None) ->
  forall n c,
    In (n, c) (storage (final (run (Portfolio.install location network) cs))) ->
    n <> Portfolio.STATIC_CACHE -> cache_match c k = None.
Proof.
  intros Hcs n c. rewrite portfolio_install_run. cbn [final emit storage].
  rewrite storage_fold_add, storage_emit_events. cbn [storage].
  intros Hin Hne.
  apply in_storage_open in Hin as [Hin | ->]; [|reflexivity].
  apply in_fold_add in Hin; [|exact Hne].
  apply in_storage_open in Hin as [Hin | ->]; [|reflexivity].
  now apply (Hcs n c).
Qed.

(** X21.  A listed file that was fetched at install is served by cache-first
    afterwards without any fetch, whatever the network does then and whichever
    cache the strategy is given: the strategy resolves with the first cached
    copy of the file over all caches, and that copy is the response fetched at
    install whenever no cache other than the static cache held the file
    before the install. *)
Theorem portfolio_precached_served_offline location network network' cs url r
    request cacheName :
  In url (Portfolio.STATIC_FILES location) ->
  network (request_of_url url) = Fetched r ->
  cacheable_by_add r = true ->
  request_key request = request_key (request_of_url url) ->
  (exists cached,
      storage_match (storage (final (run (Portfolio.install location network) cs)))
        (request_key request) = Some cached /\
      settled
        (run (Portfolio.cacheFirstStrategy network' request cacheName)
           (storage (final (run (Portfolio.install location network) cs)))) =
        Resolved cached) /\
  trace
    (final
       (run (Portfolio.cacheFirstStrategy network' request cacheName)
          (storage (final (run (Portfolio.install location network) cs))))) =
    [EvReturn] /\
  ((forall n c, In (n, c) cs -> n <> Portfolio.STATIC_CACHE ->
                cache_match c (request_key request) = None) ->
   settled
     (run (Portfolio.cacheFirstStrategy network' request cacheName)
        (storage (final (run (Portfolio.install location network) cs)))) =
     Resolved r).
Proof.
  intros Hin Hnet Hok Hkey.
  pose proof (portfolio_install_stores location network cs url r Hin Hnet Hok) as Hget.
  rewrite <- Hkey in Hget.
  destruct (store_get_storage_match _ _ _ _ Hget) as [cached Hcached].
  rewrite cacheFirst_run.
  split; [|split].
  - exists cached. now rewrite Hcached.
  - now rewrite Hcached.
  - intros Hother.
    rewrite (storage_match_only_holder _ _ _ _ Hget
               (portfolio_install_other_caches location network cs _ Hother)).
    reflexivity.
Qed.

(** Installed online on empty storage, the root page fetched at install is
    what is served offline. *)
Lemma portfolio_precached_served_offline_witness :
  settled
    (run (Portfolio.cacheFirstStrategy Samples.offline
            (Samples.GET (resolve_path Samples.location "/") "document" "text/html")
            Portfolio.STATIC_CACHE)
       (storage (final (run (Portfolio.install Samples.location
                               (Samples.online (Samples.ok_response "file"))) [])))) =
    Resolved (Samples.ok_response "file").
Proof.
  apply (portfolio_precached_served_offline Samples.location
           (Samples.online (Samples.ok_response "file")) Samples.offline []
           (resolve_path Samples.location "/") (Samples.ok_response "file")
           (Samples.GET (resolve_path Samples.location "/") "document" "text/html")
           Portfolio.STATIC_CACHE).
  - left. reflexivity.
  - reflexivity.
  - reflexivity.
  - reflexivity.
  - intros n c [].
Defined.
